(** * locustfile.py: the step load shape, the user tasks and the stop hook

    A shallow embedding of [src/locustfile.py].

    Conventions of the embedding.
    - Python [int] is [Z].
    - A Python [float] is the rational number it holds: the run time
      handed out by the harness ([get_run_time()]) is a [Q].  Where the
      code turns integers into floats, in [run_time // self.step_duration]
      and in [self.step_users / 5], the value is rounded to the nearest
      double (53 bits, ties to even) and [OverflowError] is raised past
      the range of doubles.  Comparing a float with an int is exact.  The
      floor division of two floats is taken as the floor of the exact
      quotient, which is what CPython computes for run times below [2^53]
      in size and a divisor that is a whole number.
    - A call either returns a value or raises: [result].
    - [print] appends a line to an explicit standard output.
    - [random.choice seq] is [seq[i]] for the index [i] the generator
      draws below [len(seq)]; the drawn index is an explicit argument.
      [random.randint(a, b)] asks the generator for a number below the
      width of the range; the generator's answer is an explicit
      argument too. *)

From Stdlib Require Import ZArith QArith Qround Qabs List String Bool Lia Lqa.
From Stdlib Require Import DecimalString.
Import ListNotations.

Local Open Scope Z_scope.

(** ** Python primitives used by the file *)

Module Py.

Inductive exn : Type :=
| ZeroDivisionError
| AttributeError
| IndexError
| OverflowError
| ValueError.

Inductive result (A : Type) : Type :=
| Ret (a : A)
| Raise (e : exn).
Arguments Ret {A} a.
Arguments Raise {A} e.

Definition bind {A B : Type} (m : result A) (k : A -> result B) : result B :=
  match m with
  | Ret a => k a
  | Raise e => Raise e
  end.

(** [x > n] and [x <= n] for a float [x] and an int [n]. *)
Definition gt (x : Q) (n : Z) : bool := negb (Qle_bool x (inject_Z n)).
Definition le (x : Q) (n : Z) : bool := Qle_bool x (inject_Z n).

(** [2 ** s] for an exponent of either sign. *)
Definition two_pow (s : Z) : Q :=
  if 0 <=? s then inject_Z (2 ^ s) else 1 # Z.to_pos (2 ^ (- s)).

(** The exponent of the binade of [q]: the floor of [log2 |q|], for [q]
    other than 0. *)
Definition ilog2 (q : Q) : Z :=
  let e0 := Z.log2 (Z.abs (Qnum q)) - Z.log2 (Zpos (Qden q)) in
  if Qle_bool (two_pow e0) (Qabs q) then e0 else e0 - 1.

(** The nearest whole number, ties to the even one. *)
Definition round_half_even (y : Q) : Z :=
  let f := Qfloor y in
  match Qcompare (y - inject_Z f) (1 # 2) with
  | Lt => f
  | Gt => f + 1
  | Eq => if Z.even f then f else f + 1
  end.

(** The nearest number with a 53-bit significand and an exponent not
    below that of the smallest doubles. *)
Definition round53 (q : Q) : Q :=
  if Qeq_bool q 0 then 0%Q
  else
    let s := Z.max (ilog2 q) (-1022) - 52 in
    (inject_Z (round_half_even (q / two_pow s)) * two_pow s)%Q.

(** The double nearest to [q]; [2 ** 1024] and beyond is no double. *)
Definition to_double (q : Q) : result Q :=
  let r := round53 q in
  if Qle_bool (two_pow 1024) (Qabs r) then Raise OverflowError else Ret r.

(** [float(n)] for an int, as the arithmetic of a float with an int
    applies it to the int. *)
Definition float_of_int (n : Z) : result Q := to_double (inject_Z n).

(** [int(x // d)] for a float [x] and an int [d]: the divisor becomes a
    float, a zero divisor raises, and the quotient is rounded down. *)
Definition int_floordiv (x : Q) (d : Z) : result Z :=
  match float_of_int d with
  | Raise e => Raise e
  | Ret d' =>
      if Qeq_bool d' 0 then Raise ZeroDivisionError
      else Ret (Qfloor (x / d'))
  end.

(** [int(q)]: truncation toward zero. *)
Definition int (q : Q) : Z := Z.quot (Qnum q) (Zpos (Qden q)).

(** [a / b] on two ints: the double nearest to the quotient; a zero
    divisor raises. *)
Definition truediv (a b : Z) : result Q :=
  if b =? 0 then Raise ZeroDivisionError
  else to_double (inject_Z a / inject_Z b)%Q.

(** [str(n)] for an int. *)
Definition str (n : Z) : string := NilZero.string_of_int (Z.to_int n).

End Py.

Import Py.

Declare Scope py_scope.
Delimit Scope py_scope with py.
Notation "x <- m ;; k" := (Py.bind m (fun x => k))
  (at level 61, m at next level, right associativity) : py_scope.

(** ** class StepLoadShape *)

Record StepLoadShape : Type := {
  step_duration : Z;
  step_users : Z;
  max_steps : Z;
  hold_steps : Z
}.

(** The class attributes as written in the file. *)
Definition defaults : StepLoadShape :=
  {| step_duration := 60; step_users := 20; max_steps := 6; hold_steps := 2 |}.

(** The same attributes with [max_steps] overridden to 0. *)
Definition no_steps : StepLoadShape :=
  {| step_duration := 60; step_users := 20; max_steps := 0; hold_steps := 2 |}.

(** The same attributes with [step_users] overridden to 0. *)
Definition no_users : StepLoadShape :=
  {| step_duration := 60; step_users := 0; max_steps := 6; hold_steps := 2 |}.

(** The same attributes with [step_duration] overridden to 0. *)
Definition no_duration : StepLoadShape :=
  {| step_duration := 0; step_users := 20; max_steps := 6; hold_steps := 2 |}.

(** The same attributes with [step_users] beyond the whole numbers that
    doubles hold exactly. *)
Definition many_users : StepLoadShape :=
  {| step_duration := 60; step_users := 45035996273704965;
     max_steps := 6; hold_steps := 2 |}.

(** [spawn_rate = max(1, int(self.step_users / 5))] *)
Definition spawn_rate (self : StepLoadShape) : result Z :=
  (q <- truediv (step_users self) 5 ;;
   Ret (Z.max 1 (int q)))%py.

(** [StepLoadShape.tick], with [run_time] the value of
    [self.get_run_time()].  [None] stops the test. *)
Definition tick (self : StepLoadShape) (run_time : Q) : result (option (Z * Z)) :=
  let total_ramp_time := step_duration self * max_steps self in
  if gt run_time (total_ramp_time + hold_steps self * step_duration self) then
    Ret None
  else if le run_time total_ramp_time then
    (current_step <- (n <- int_floordiv run_time (step_duration self) ;; Ret (n + 1)) ;;
     let target_users := current_step * step_users self in
     spawn_rate <- spawn_rate self ;;
     Ret (Some (target_users, spawn_rate)))%py
  else
    (let target_users := max_steps self * step_users self in
     spawn_rate <- spawn_rate self ;;
     Ret (Some (target_users, spawn_rate)))%py.

(** The target of an answer, when it is a pair. *)
Definition target_of (r : result (option (Z * Z))) : option Z :=
  match r with
  | Ret (Some (users, _)) => Some users
  | _ => None
  end.

(** ** The method as it runs on the object *)

Module Obj.

(** What a call can reach: the attributes of [self] by name, the run time
    the runner reports, and what the process has printed. *)
Record world : Type := {
  attrs : string -> option Z;
  elapsed : Q;
  printed : list string
}.

(** A statement: it returns or raises, and leaves a world behind. *)
Definition m (A : Type) : Type := world -> result A * world.

Definition ret {A : Type} (a : A) : m A := fun w => (Ret a, w).

Definition bind {A B : Type} (c : m A) (k : A -> m B) : m B :=
  fun w =>
    match c w with
    | (Ret a, w1) => k a w1
    | (Raise e, w1) => (Raise e, w1)
    end.

Definition lift {A : Type} (r : result A) : m A := fun w => (r, w).

(** [self.name]: a missing attribute raises. *)
Definition getattr (name : string) : m Z :=
  fun w =>
    match attrs w name with
    | Some v => (Ret v, w)
    | None => (Raise AttributeError, w)
    end.

(** [self.name = v] *)
Definition setattr (name : string) (v : Z) : m unit :=
  fun w =>
    (Ret tt,
     {| attrs := fun n => if String.eqb n name then Some v else attrs w n;
        elapsed := elapsed w;
        printed := printed w |}).

(** [self.get_run_time()] *)
Definition get_run_time : m Q := fun w => (Ret (elapsed w), w).

End Obj.

Import Obj.

Declare Scope obj_scope.
Delimit Scope obj_scope with obj.
Notation "x <- c ;; k" := (Obj.bind c (fun x => k))
  (at level 61, c at next level, right associativity) : obj_scope.

(** [StepLoadShape.tick] statement by statement, each [self.name] a read
    of the object. *)
Definition tick_method : Obj.m (option (Z * Z)) :=
  (run_time <- get_run_time ;;
   sd <- getattr "step_duration" ;;
   ms <- getattr "max_steps" ;;
   let total_ramp_time := sd * ms in
   hs <- getattr "hold_steps" ;;
   sd1 <- getattr "step_duration" ;;
   if gt run_time (total_ramp_time + hs * sd1) then
     Obj.ret None
   else if le run_time total_ramp_time then
     sd2 <- getattr "step_duration" ;;
     n <- lift (int_floordiv run_time sd2) ;;
     let current_step := n + 1 in
     su <- getattr "step_users" ;;
     let target_users := current_step * su in
     su1 <- getattr "step_users" ;;
     q <- lift (truediv su1 5) ;;
     let spawn_rate := Z.max 1 (int q) in
     Obj.ret (Some (target_users, spawn_rate))
   else
     ms1 <- getattr "max_steps" ;;
     su <- getattr "step_users" ;;
     let target_users := ms1 * su in
     su1 <- getattr "step_users" ;;
     q <- lift (truediv su1 5) ;;
     let spawn_rate := Z.max 1 (int q) in
     Obj.ret (Some (target_users, spawn_rate)))%obj.

(** The object with the attributes of a shape, and nothing else. *)
Definition attrs_of (self : StepLoadShape) (name : string) : option Z :=
  if String.eqb name "step_duration" then Some (step_duration self)
  else if String.eqb name "step_users" then Some (step_users self)
  else if String.eqb name "max_steps" then Some (max_steps self)
  else if String.eqb name "hold_steps" then Some (hold_steps self)
  else None.

(** The attributes [tick] reads. *)
Definition shape_attrs : list string :=
  ["step_duration"; "step_users"; "max_steps"; "hold_steps"]%string.

(** Two worlds a call can meet: the object as created, half a second
    into the run; and the same object later in the process, with another
    attribute set and output printed, at a run time equal to the first. *)
Definition first_world : world :=
  {| attrs := attrs_of defaults; elapsed := 1 # 2; printed := [] |}.

Definition later_world : world :=
  snd (setattr "calls" 7
         {| attrs := attrs_of defaults; elapsed := 2 # 4;
            printed := ["Test finished. Summary:"%string] |}).

(** ** class BasicUser: the two tasks with a drawn parameter *)

(** [random.choice(seq)] with [i] the index drawn below [len(seq)]. *)
Definition random_choice {A : Type} (seq : list A) (i : nat) : result A :=
  match nth_error seq i with
  | Some x => Ret x
  | None => Raise IndexError
  end.

(** What [self.client.get(path, name=..., timeout=...)] sends. *)
Record Request : Type := {
  method : string;
  path : string;
  name : string;
  timeout : Z
}.

Definition client_get (path name : string) (timeout : Z) : Request :=
  {| method := "GET"; path := path; name := name; timeout := timeout |}.

(** The list literals the two tasks draw from. *)
Definition delays : list Z := [1; 2; 3].
Definition status_codes : list Z := [200; 200; 200; 404; 500].

(** [BasicUser.delayed] *)
Definition delayed (i : nat) : result Request :=
  (delay <- random_choice delays i ;;
   Ret (client_get ("/delay/" ++ str delay) ("GET /delay/" ++ str delay) 60))%py.

(** [BasicUser.status_check] *)
Definition status_check (i : nat) : result Request :=
  (code <- random_choice status_codes i ;;
   Ret (client_get ("/status/" ++ str code) ("GET /status/" ++ str code) 30))%py.

(** The share of the [n] equally likely indices at which a task sends a
    request satisfying [P]. *)
Definition frequency {A : Type} (n : nat) (draw : nat -> result A)
    (P : A -> bool) : Q :=
  let hit i := match draw i with Ret a => P a | Raise _ => false end in
  Z.of_nat (List.length (filter hit (seq 0 n))) # Pos.of_nat n.

Definition path_is (p : string) (r : Request) : bool := String.eqb (path r) p.

(** ** The [test_stop] listener *)

Module Hook.

(** An f-string is kept as its pieces: literal text and the values put
    into the holes. *)
Inductive piece : Type :=
| Lit (s : string)
| IntVal (n : Z)
| FloatVal (q : Q).

Definition line : Type := list piece.

Record StatsEntry : Type := {
  num_requests : Z;
  num_failures : Z;
  avg_response_time : Q
}.

Record RequestStats : Type := { total : StatsEntry }.

Record Runner : Type := { stats : RequestStats }.

(** [environment.runner] is [None] until a runner is created. *)
Record Environment : Type := { runner : option Runner }.

(** Statements that print: standard output is threaded through, and what
    was printed before an exception stays printed. *)
Definition io (A : Type) : Type := list line -> result A * list line.

Definition ret {A : Type} (a : A) : io A := fun out => (Ret a, out).

Definition raise {A : Type} (e : exn) : io A := fun out => (Raise e, out).

Definition bind {A B : Type} (m : io A) (k : A -> io B) : io B :=
  fun out =>
    match m out with
    | (Ret a, out1) => k a out1
    | (Raise e, out1) => (Raise e, out1)
    end.

Definition print (l : line) : io unit := fun out => (Ret tt, out ++ [l]).

(** [r.stats] for [r = environment.runner]: [None] has no attribute. *)
Definition get_stats (r : option Runner) : io RequestStats :=
  match r with
  | Some rn => ret (stats rn)
  | None => raise AttributeError
  end.

(** Truth value of [environment.runner]. *)
Definition truthy (r : option Runner) : bool :=
  match r with
  | Some _ => true
  | None => false
  end.

End Hook.

Import Hook.

Declare Scope io_scope.
Delimit Scope io_scope with io.
Notation "x <- m ;; k" := (Hook.bind m (fun x => k))
  (at level 61, m at next level, right associativity) : io_scope.
Notation "m ;; k" := (Hook.bind m (fun _ => k))
  (at level 61, right associativity) : io_scope.

(** [on_test_stop(environment, **kwargs)] *)
Definition on_test_stop (environment : Environment) : io unit :=
  (print [Lit "Test finished. Summary:"] ;;
   stats <- get_stats (runner environment) ;;
   if truthy (runner environment) then
     print [Lit "  Total requests: "; IntVal (num_requests (total stats))] ;;
     print [Lit "  Failures: "; IntVal (num_failures (total stats))] ;;
     print [Lit "  Avg response time (ms): ";
            FloatVal (avg_response_time (total stats))]
   else
     ret tt)%io.

(** ** The rest of the file: [random_string] and the other tasks *)

(** [string.ascii_letters] and [string.digits]. *)
Definition ascii_letters : string :=
  "abcdefghijklmnopqrstuvwxyzABCDEFGHIJKLMNOPQRSTUVWXYZ".
Definition digits : string := "0123456789".

(** The population [string.ascii_letters + string.digits], character by
    character. *)
Definition alphabet : list Ascii.ascii :=
  list_ascii_of_string (ascii_letters ++ digits).

(** A list comprehension whose body may raise: the first exception ends
    it. *)
Fixpoint map_result {A B : Type} (f : A -> result B) (l : list A)
  : result (list B) :=
  match l with
  | [] => Ret []
  | x :: rest =>
      (y <- f x ;;
       ys <- map_result f rest ;;
       Ret (y :: ys))%py
  end.

(** [random.choices(population, k=k)]: [k] elements drawn with
    replacement, [draw j] being the index drawn for element number [j]. *)
Definition random_choices {A : Type} (population : list A) (k : nat)
    (draw : nat -> nat) : result (list A) :=
  map_result (fun j => random_choice population (draw j)) (seq 0 k).

(** [random_string(n)]; a count below zero draws nothing. *)
Definition random_string (n : Z) (draw : nat -> nat) : result string :=
  (chars <- random_choices alphabet (Z.to_nat n) draw ;;
   Ret (string_of_list_ascii chars))%py.

(** [random.randint(a, b)]: [a] plus the number the generator gives when
    asked for one below the width [b + 1 - a]; an empty range raises.
    [below n] is the generator's answer to a request below [n]. *)
Definition randint (a b : Z) (below : Z -> Z) : result Z :=
  let width := b + 1 - a in
  if 0 <? width then Ret (a + below width) else Raise ValueError.

(** The letters and digits, by character code. *)
Definition is_alnum (c : Ascii.ascii) : bool :=
  let n := Ascii.nat_of_ascii c in
  ((48 <=? n)%nat && (n <=? 57)%nat)
  || ((65 <=? n)%nat && (n <=? 90)%nat)
  || ((97 <=? n)%nat && (n <=? 122)%nat).

(** The first place of a character in a list (its length when it has
    none). *)
Fixpoint index_in (c : Ascii.ascii) (l : list Ascii.ascii) : nat :=
  match l with
  | [] => 0%nat
  | x :: rest => if Ascii.eqb x c then 0%nat else S (index_in c rest)
  end.

(** The values put into [params] and into the JSON body. *)
Inductive value : Type :=
| Int (n : Z)
| Str (s : string).

(** A call of [self.client.get] or [self.client.post] with its keyword
    arguments; [None] is an argument left out. *)
Record Call : Type := {
  request : Request;
  params : option (list (string * value));
  json : option (list (string * value))
}.

Definition plain (r : Request) : Call :=
  {| request := r; params := None; json := None |}.

(** [BasicUser.get_root] *)
Definition get_root : Call := plain (client_get "/get" "GET /get" 30).

(** [BasicUser.get_with_query]: six drawn characters, then the page. *)
Definition get_with_query (draw : nat -> nat) (below : Z -> Z) : result Call :=
  (q <- random_string 6 draw ;;
   page <- randint 1 100 below ;;
   let params := [("q"%string, Str q); ("page"%string, Int page)] in
   Ret {| request := client_get "/get" "GET /get?q=.." 30;
          params := Some params;
          json := None |})%py.

(** [BasicUser.stream] *)
Definition stream : Call :=
  plain (client_get "/stream/20" "GET /stream/20" 60).

(** [BasicUser.post_json], with [now] the value of [time.time()]: the id
    is drawn first, then the ten characters. *)
Definition post_json (below : Z -> Z) (draw : nat -> nat) (now : Q)
  : result Call :=
  (id <- randint 1 100000 below ;;
   nm <- random_string 10 draw ;;
   let payload :=
     [("id"%string, Int id); ("name"%string, Str nm);
      ("timestamp"%string, Int (int now))] in
   Ret {| request := {| method := "POST"; path := "/post";
                        name := "POST /post (json)"; timeout := 30 |};
          params := None;
          json := Some payload |})%py.

(** The six methods of the class marked [@task]. *)
Inductive Task : Type :=
| GetRoot
| GetWithQuery
| Delayed
| Stream
| PostJson
| StatusCheck.

(** What one run of a task takes from outside: the index drawn by
    [random.choice], the indices drawn by [random.choices], the
    generator's answer to [random.randint]'s request for a number below
    a width, and the clock. *)
Record Draws : Type := {
  index : nat;
  letters : nat -> nat;
  number : Z -> Z;
  clock : Q
}.

Definition run_task (t : Task) (d : Draws) : result Call :=
  match t with
  | GetRoot => Ret get_root
  | GetWithQuery => get_with_query (letters d) (number d)
  | Delayed => (r <- delayed (index d) ;; Ret (plain r))%py
  | Stream => Ret stream
  | PostJson => post_json (number d) (letters d) (clock d)
  | StatusCheck => (r <- status_check (index d) ;; Ret (plain r))%py
  end.

(** The draws the generator can make for a task: each below the size of
    what it is drawn from. *)
Definition in_range (t : Task) (d : Draws) : Prop :=
  match t with
  | GetRoot | Stream => True
  | GetWithQuery =>
      (forall j, (j < 6)%nat -> (letters d j < 62)%nat)
      /\ (forall n, 0 < n -> 0 <= number d n < n)
  | Delayed => (index d < 3)%nat
  | PostJson =>
      (forall j, (j < 10)%nat -> (letters d j < 62)%nat)
      /\ (forall n, 0 < n -> 0 <= number d n < n)
  | StatusCheck => (index d < 5)%nat
  end.

(** A generator that answers a request below [n] with [n - 1], as one
    instance of what a run can draw. *)
Definition some_draws : Draws :=
  {| index := 1; letters := fun j => j; number := fun n => n - 1;
     clock := 5 # 3 |}.

(** The names under which requests are counted. *)
Definition labels : list string :=
  ["GET /get"; "GET /get?q=.."; "GET /delay/1"; "GET /delay/2";
   "GET /delay/3"; "GET /stream/20"; "POST /post (json)";
   "GET /status/200"; "GET /status/404"; "GET /status/500"]%string.

(** * Properties *)

Local Open Scope Q_scope.

(** ** The comparisons *)

Lemma gt_true (x : Q) (n : Z) : gt x n = true <-> inject_Z n < x.
Proof.
  unfold gt. rewrite negb_true_iff, <- not_true_iff_false, Qle_bool_iff.
  split; [apply Qnot_le_lt | apply Qlt_not_le].
Qed.

Lemma gt_false (x : Q) (n : Z) : gt x n = false <-> x <= inject_Z n.
Proof.
  unfold gt. rewrite negb_false_iff. apply Qle_bool_iff.
Qed.

Lemma le_true (x : Q) (n : Z) : le x n = true <-> x <= inject_Z n.
Proof. apply Qle_bool_iff. Qed.

Lemma le_false (x : Q) (n : Z) : le x n = false <-> inject_Z n < x.
Proof.
  unfold le. rewrite <- not_true_iff_false, Qle_bool_iff.
  split; [apply Qnot_le_lt | apply Qlt_not_le].
Qed.

(** ** Rounding to doubles *)

Lemma two_pow_pos (s : Z) : 0 < two_pow s.
Proof.
  unfold two_pow. destruct (0 <=? s)%Z eqn:Hs.
  - apply Z.leb_le in Hs. change 0 with (inject_Z 0). rewrite <- Zlt_Qlt.
    apply Z.pow_pos_nonneg; lia.
  - reflexivity.
Qed.

(** Dividing by a power of two with an exponent not above 0 multiplies by
    a whole number. *)
Lemma div_two_pow (q : Q) (s : Z) :
  (s <= 0)%Z -> q / two_pow s == q * inject_Z (2 ^ (- s)).
Proof.
  intros Hs. unfold two_pow.
  destruct (0 <=? s)%Z eqn:H0.
  - apply Z.leb_le in H0. assert (s = 0)%Z as -> by lia. simpl. field.
  - assert (0 < 2 ^ (- s))%Z as Hp by (apply Z.pow_pos_nonneg; lia).
    unfold Qdiv, Qinv. simpl.
    rewrite Z2Pos.id by exact Hp.
    destruct (2 ^ (- s))%Z eqn:E; try lia. reflexivity.
Qed.

Lemma two_pow_small (s : Z) : (s <= -2)%Z -> two_pow s <= 1 # 4.
Proof.
  intros Hs. unfold two_pow.
  destruct (0 <=? s)%Z eqn:H0; [apply Z.leb_le in H0; lia |].
  assert (2 ^ 2 <= 2 ^ (- s))%Z as Hp by (apply Z.pow_le_mono_r; lia).
  unfold Qle. simpl. rewrite Z2Pos.id by lia. lia.
Qed.

Lemma round_half_even_comp (x y : Q) :
  x == y -> round_half_even x = round_half_even y.
Proof.
  intros H. unfold round_half_even.
  rewrite (Qfloor_comp x y H).
  assert (x - inject_Z (Qfloor y) == y - inject_Z (Qfloor y)) as Hd
    by (rewrite H; reflexivity).
  rewrite (Qcompare_comp _ _ Hd _ _ (Qeq_refl (1 # 2))). reflexivity.
Qed.

Lemma round_half_even_int (k : Z) : round_half_even (inject_Z k) = k.
Proof.
  unfold round_half_even. rewrite Qfloor_Z.
  assert (inject_Z k - inject_Z k < 1 # 2) as H by lra.
  rewrite Qlt_alt in H. rewrite H. reflexivity.
Qed.

Lemma round_half_even_near (y : Q) :
  y - (1 # 2) <= inject_Z (round_half_even y) /\
  inject_Z (round_half_even y) <= y + (1 # 2).
Proof.
  unfold round_half_even.
  pose proof (Qfloor_le y) as Hlo. pose proof (Qlt_floor y) as Hhi.
  rewrite inject_Z_plus in Hhi. change (inject_Z 1) with 1 in Hhi.
  destruct (Qcompare (y - inject_Z (Qfloor y)) (1 # 2)) eqn:Hc.
  - apply Qeq_alt in Hc.
    destruct (Z.even (Qfloor y)); [| rewrite inject_Z_plus; change (inject_Z 1) with 1];
      lra.
  - apply Qlt_alt in Hc. lra.
  - apply Qgt_alt in Hc. rewrite inject_Z_plus. change (inject_Z 1) with 1. lra.
Qed.

Lemma ilog2_upper (q : Q) :
  (ilog2 q <= Z.log2 (Z.abs (Qnum q)) - Z.log2 (Zpos (Qden q)))%Z.
Proof.
  unfold ilog2. destruct (Qle_bool _ _); lia.
Qed.

(** A whole number in a binade whose doubles are whole is its own
    double. *)
Lemma round53_exact (q : Q) (k : Z) :
  q == inject_Z k -> (ilog2 q <= 52)%Z -> round53 q == inject_Z k.
Proof.
  intros Hq He. unfold round53.
  destruct (Qeq_bool q 0) eqn:H0.
  - apply Qeq_bool_iff in H0. rewrite <- Hq, H0. reflexivity.
  - set (s := (Z.max (ilog2 q) (-1022) - 52)%Z).
    assert (s <= 0)%Z as Hs by (subst s; lia).
    assert (q / two_pow s == inject_Z (k * 2 ^ (- s))) as Hy.
    { rewrite (div_two_pow q s Hs), Hq, inject_Z_mult. reflexivity. }
    rewrite (round_half_even_comp _ _ Hy), round_half_even_int.
    rewrite inject_Z_mult, <- Hq, <- (div_two_pow q s Hs).
    field. pose proof (two_pow_pos s). lra.
Qed.

(** In the binades up to [2 ** 51] rounding moves a number by an eighth
    at most. *)
Lemma round53_near (q : Q) :
  (ilog2 q <= 50)%Z ->
  q - (1 # 8) <= round53 q /\ round53 q <= q + (1 # 8).
Proof.
  intros He. unfold round53.
  destruct (Qeq_bool q 0) eqn:H0.
  - apply Qeq_bool_iff in H0. lra.
  - set (s := (Z.max (ilog2 q) (-1022) - 52)%Z).
    assert (s <= -2)%Z as Hs by (subst s; lia).
    pose proof (two_pow_pos s) as Hp.
    pose proof (two_pow_small s Hs) as Hq.
    destruct (round_half_even_near (q / two_pow s)) as [Hlo Hhi].
    set (m := inject_Z (round_half_even (q / two_pow s))) in *.
    assert (q == q / two_pow s * two_pow s) as Hmul by (field; lra).
    set (y := q / two_pow s) in *.
    split.
    + assert ((y - (1 # 2)) * two_pow s <= m * two_pow s)
        by (apply Qmult_le_compat_r; lra).
      nra.
    + assert (m * two_pow s <= (y + (1 # 2)) * two_pow s)
        by (apply Qmult_le_compat_r; lra).
      nra.
Qed.

Lemma log2_abs_bound (n b : Z) :
  (0 <= b)%Z -> (Z.abs n < 2 ^ (b + 1))%Z -> (Z.log2 (Z.abs n) <= b)%Z.
Proof.
  intros Hb H.
  destruct (Z.eq_dec (Z.abs n) 0) as [-> | Hn]; [simpl; lia |].
  assert (Z.log2 (Z.abs n) < b + 1)%Z; [| lia].
  apply Z.log2_lt_pow2; lia.
Qed.

Lemma no_overflow (r : Q) :
  inject_Z (- 2 ^ 54) <= r -> r <= inject_Z (2 ^ 54) ->
  Qle_bool (two_pow 1024) (Qabs r) = false.
Proof.
  intros Hlo Hhi. apply not_true_iff_false. intros H.
  apply Qle_bool_iff in H.
  assert (Qabs r <= inject_Z (2 ^ 54)) as Ha.
  { apply Qabs_Qle_condition. split; [| exact Hhi].
    rewrite <- inject_Z_opp. exact Hlo. }
  assert (inject_Z (2 ^ 54) < two_pow 1024) as Hb.
  { change (two_pow 1024) with (inject_Z (2 ^ 1024)).
    rewrite <- Zlt_Qlt. apply Z.pow_lt_mono_r; lia. }
  lra.
Qed.

(** Below [2 ** 53] in size an int is its own float. *)
Lemma float_of_int_exact (n : Z) :
  (Z.abs n < 2 ^ 53)%Z ->
  exists d : Q, float_of_int n = Ret d /\ d == inject_Z n.
Proof.
  intros Hn. unfold float_of_int, to_double.
  assert (round53 (inject_Z n) == inject_Z n) as Hr.
  { apply round53_exact; [reflexivity |].
    etransitivity; [apply ilog2_upper |]. simpl Qnum. simpl Qden.
    change (Z.log2 1) with 0%Z.
    pose proof (log2_abs_bound n 52). lia. }
  rewrite no_overflow.
  - eexists. split; [reflexivity | exact Hr].
  - rewrite Hr, <- Zle_Qle. lia.
  - rewrite Hr, <- Zle_Qle. lia.
Qed.

Lemma int_nonpos (r : Q) : r <= 0 -> (int r <= 0)%Z.
Proof.
  destruct r as [num den]. unfold Qle, int. simpl. intros H.
  apply Z.quot_le_upper_bound; lia.
Qed.

Lemma int_floor (q : Q) : 0 <= q -> int q = Qfloor q.
Proof.
  destruct q as [num den]. unfold Qle, int, Qfloor. simpl.
  intros H. apply Z.quot_div_nonneg; lia.
Qed.

Lemma Qfloor_unique (x : Q) (k : Z) :
  inject_Z k <= x -> x < inject_Z (k + 1) -> Qfloor x = k.
Proof.
  intros Hlo Hhi.
  pose proof (Qfloor_le x) as Hfl.
  pose proof (Qlt_floor x) as Hfu.
  assert (k < Qfloor x + 1)%Z.
  { rewrite Zlt_Qlt. eapply Qle_lt_trans; eassumption. }
  assert (Qfloor x < k + 1)%Z.
  { rewrite Zlt_Qlt. eapply Qle_lt_trans; eassumption. }
  lia.
Qed.

(** With [step_users] below [5 * 2 ** 50] in size the spawn rate is the
    exact one. *)
Lemma spawn_rate_exact (self : StepLoadShape) :
  (Z.abs (step_users self) < 5 * 2 ^ 50)%Z ->
  spawn_rate self = Ret (Z.max 1 (step_users self / 5)%Z).
Proof.
  intros Hu. unfold spawn_rate, truediv, to_double. simpl (5 =? 0)%Z. cbv iota.
  set (su := step_users self) in *.
  set (q := inject_Z su / inject_Z 5).
  assert (q == inject_Z su * (1 # 5)) as Hq by reflexivity.
  assert (ilog2 q <= 50)%Z as He.
  { etransitivity; [apply ilog2_upper |].
    change (Qnum q) with (su * 1)%Z. change (Qden q) with 5%positive.
    change (Z.log2 5) with 2%Z. rewrite Z.mul_1_r.
    assert (Z.log2 (Z.abs su) <= 52)%Z; [| lia].
    apply log2_abs_bound; [lia |].
    change (2 ^ (52 + 1))%Z with 9007199254740992%Z.
    change (5 * 2 ^ 50)%Z with 5629499534213120%Z in Hu. lia. }
  destruct (round53_near q He) as [Hlo Hhi].
  assert (inject_Z (- 2 ^ 53) <= inject_Z su /\ inject_Z su <= inject_Z (2 ^ 53))
    as [Hsl Hsh].
  { rewrite <- !Zle_Qle.
    change (2 ^ 53)%Z with 9007199254740992%Z.
    change (5 * 2 ^ 50)%Z with 5629499534213120%Z in Hu. lia. }
  change (inject_Z (- 2 ^ 53)) with (- 9007199254740992) in Hsl.
  change (inject_Z (2 ^ 53)) with 9007199254740992 in Hsh.
  rewrite no_overflow;
    [| change (inject_Z (- 2 ^ 54)) with (- 18014398509481984); lra
     | change (inject_Z (2 ^ 54)) with 18014398509481984; lra].
  unfold Py.bind. f_equal.
  pose proof (Z.div_mod su 5 ltac:(lia)) as Hdm.
  pose proof (Z.mod_pos_bound su 5 ltac:(lia)) as Hm.
  assert (inject_Z su == 5 * inject_Z (su / 5) + inject_Z (su mod 5)) as Hsu.
  { rewrite Hdm at 1. rewrite inject_Z_plus, inject_Z_mult. reflexivity. }
  assert (0 <= inject_Z (su mod 5) /\ inject_Z (su mod 5) <= 4) as [Hm0 Hm4].
  { change 0 with (inject_Z 0). change 4 with (inject_Z 4).
    rewrite <- !Zle_Qle. lia. }
  destruct (Z.le_gt_cases 0 su) as [Hpos | Hneg].
  - assert (0 <= su / 5)%Z as Hk by (apply Z.div_pos; lia).
    assert (0 <= inject_Z (su / 5)) as Hk'
      by (change 0 with (inject_Z 0); rewrite <- Zle_Qle; exact Hk).
    assert (inject_Z (su / 5) <= round53 q /\
            round53 q < inject_Z (su / 5 + 1)) as [Hb1 Hb2].
    { rewrite inject_Z_plus. change (inject_Z 1) with 1.
      destruct (Z.eq_dec (su mod 5) 0) as [Hz | Hnz].
      - assert (round53 q == inject_Z (su / 5)) as Hex.
        { apply round53_exact; [| lia].
          rewrite Hq, Hsu, Hz. change (inject_Z 0) with 0. field. }
        lra.
      - assert (1 <= inject_Z (su mod 5)).
        { change 1 with (inject_Z 1). rewrite <- Zle_Qle. lia. }
        lra. }
    rewrite int_floor by lra.
    rewrite (Qfloor_unique _ _ Hb1 Hb2). reflexivity.
  - assert (inject_Z su <= -1) as Hn1.
    { change (-1) with (inject_Z (-1)). rewrite <- Zle_Qle. lia. }
    assert (int (round53 q) <= 0)%Z by (apply int_nonpos; lra).
    assert (su / 5 < 0)%Z by (apply Z.div_lt_upper_bound; lia).
    lia.
Qed.

Lemma int_floordiv_zero (x : Q) : int_floordiv x 0 = Raise ZeroDivisionError.
Proof. reflexivity. Qed.

(** Below [2 ** 53] in size the divisor is its own float, and the floor
    division is that by the divisor. *)
Lemma int_floordiv_exact (x : Q) (d : Z) :
  (Z.abs d < 2 ^ 53)%Z -> d <> 0%Z ->
  int_floordiv x d = Ret (Qfloor (x / inject_Z d)).
Proof.
  intros Hb Hd. unfold int_floordiv.
  destruct (float_of_int_exact d Hb) as (d' & -> & Hd').
  destruct (Qeq_bool d' 0) eqn:H0.
  - apply Qeq_bool_iff in H0. rewrite Hd' in H0.
    exfalso. apply Hd. unfold Qeq in H0. simpl in H0. lia.
  - f_equal. apply Qfloor_comp. rewrite Hd'. reflexivity.
Qed.

Lemma int_floordiv_comp (x y : Q) (d : Z) :
  x == y -> int_floordiv x d = int_floordiv y d.
Proof.
  intros H. unfold int_floordiv.
  destruct (float_of_int d) as [d' |]; [| reflexivity].
  destruct (Qeq_bool d' 0); [reflexivity |].
  f_equal. apply Qfloor_comp. rewrite H. reflexivity.
Qed.

(** ** The three branches of [tick] *)

Section Branches.

Variable self : StepLoadShape.
Variable run_time : Q.

Let total_ramp_time : Z := (step_duration self * max_steps self)%Z.
Let stop_time : Z :=
  (total_ramp_time + hold_steps self * step_duration self)%Z.
Let rate : Z := Z.max 1 (step_users self / 5)%Z.

Lemma tick_stop :
  inject_Z stop_time < run_time -> tick self run_time = Ret None.
Proof.
  intros H. unfold tick. apply gt_true in H.
  subst stop_time total_ramp_time. rewrite H. reflexivity.
Qed.

Lemma tick_ramp :
  run_time <= inject_Z stop_time ->
  run_time <= inject_Z total_ramp_time ->
  step_duration self <> 0%Z ->
  (Z.abs (step_duration self) < 2 ^ 53)%Z ->
  (Z.abs (step_users self) < 5 * 2 ^ 50)%Z ->
  tick self run_time =
    Ret (Some (((Qfloor (run_time / inject_Z (step_duration self)) + 1)
                * step_users self)%Z, rate)).
Proof.
  intros Hs Hr Hd Hbd Hbu. unfold tick.
  apply gt_false in Hs. apply le_true in Hr.
  subst stop_time total_ramp_time. rewrite Hs, Hr.
  rewrite (int_floordiv_exact _ _ Hbd Hd), (spawn_rate_exact _ Hbu).
  reflexivity.
Qed.

Lemma tick_ramp_zero_duration :
  run_time <= inject_Z stop_time ->
  run_time <= inject_Z total_ramp_time ->
  step_duration self = 0%Z ->
  tick self run_time = Raise ZeroDivisionError.
Proof.
  intros Hs Hr Hd. unfold tick. apply gt_false in Hs. apply le_true in Hr.
  subst stop_time total_ramp_time. rewrite Hs, Hr.
  rewrite Hd, int_floordiv_zero. reflexivity.
Qed.

Lemma tick_hold :
  run_time <= inject_Z stop_time ->
  inject_Z total_ramp_time < run_time ->
  (Z.abs (step_users self) < 5 * 2 ^ 50)%Z ->
  tick self run_time =
    Ret (Some ((max_steps self * step_users self)%Z, rate)).
Proof.
  intros Hs Hr Hbu. unfold tick. apply gt_false in Hs. apply le_false in Hr.
  subst stop_time total_ramp_time. rewrite Hs, Hr.
  rewrite (spawn_rate_exact _ Hbu). reflexivity.
Qed.

End Branches.

Lemma tick_none_inv (self : StepLoadShape) (e : Q) :
  tick self e = Ret None ->
  inject_Z (step_duration self * max_steps self
            + hold_steps self * step_duration self) < e.
Proof.
  intros H. apply gt_true. unfold tick in H.
  destruct (gt e _); [reflexivity |].
  destruct (le e _).
  - destruct (int_floordiv e (step_duration self)); [| discriminate H].
    destruct (spawn_rate self); discriminate H.
  - destruct (spawn_rate self); discriminate H.
Qed.

(** Which branch answered, read off an answer that is a pair. *)
Lemma tick_some_inv (self : StepLoadShape) (e : Q) (t r : Z) :
  (Z.abs (step_duration self) < 2 ^ 53)%Z ->
  tick self e = Ret (Some (t, r)) ->
  spawn_rate self = Ret r /\
  ((e <= inject_Z (step_duration self * max_steps self) /\
    step_duration self <> 0%Z /\
    t = ((Qfloor (e / inject_Z (step_duration self)) + 1) * step_users self)%Z)
   \/
   (inject_Z (step_duration self * max_steps self) < e /\
    t = (max_steps self * step_users self)%Z)).
Proof.
  intros Hbd H. unfold tick in H.
  destruct (gt e _); [discriminate H |].
  destruct (le e _) eqn:Hle.
  - apply le_true in Hle.
    destruct (Z.eq_dec (step_duration self) 0) as [Hz | Hnz].
    + rewrite Hz, int_floordiv_zero in H. discriminate H.
    + rewrite (int_floordiv_exact _ _ Hbd Hnz) in H.
      destruct (spawn_rate self) as [r' |]; [| discriminate H].
      unfold Py.bind in H. injection H as <- <-.
      split; [reflexivity |]. left. repeat split; assumption.
  - apply le_false in Hle.
    destruct (spawn_rate self) as [r' |]; [| discriminate H].
    unfold Py.bind in H. injection H as <- <-.
    split; [reflexivity |]. right. split; [exact Hle | reflexivity].
Qed.

(** ** The staircase *)

(** Step [k + 1] covers the run times in [[k * d, (k + 1) * d)]. *)
Lemma floordiv_step (x : Q) (d k : Z) :
  (0 < d)%Z ->
  inject_Z (k * d) <= x -> x < inject_Z ((k + 1) * d) ->
  Qfloor (x / inject_Z d) = k.
Proof.
  intros Hd Hlo Hhi.
  assert (inject_Z 0 < inject_Z d) as Hd' by (rewrite <- Zlt_Qlt; exact Hd).
  apply Qfloor_unique.
  - apply Qle_shift_div_l; [exact Hd' |].
    rewrite <- inject_Z_mult. exact Hlo.
  - apply Qlt_shift_div_r; [exact Hd' |].
    rewrite <- inject_Z_mult. exact Hhi.
Qed.

(** The quotient of the floor division brackets the run time. *)
Lemma floordiv_bounds (x : Q) (d : Z) :
  (0 < d)%Z ->
  inject_Z (Qfloor (x / inject_Z d) * d) <= x /\
  x < inject_Z ((Qfloor (x / inject_Z d) + 1) * d).
Proof.
  intros Hd.
  assert (inject_Z 0 < inject_Z d) as Hd' by (rewrite <- Zlt_Qlt; exact Hd).
  assert (x / inject_Z d * inject_Z d == x) as Hx.
  { field. intros H0. rewrite H0 in Hd'. discriminate Hd'. }
  rewrite !inject_Z_mult. split.
  - rewrite <- Hx at 2. apply Qmult_le_r; [exact Hd' | apply Qfloor_le].
  - rewrite <- Hx at 1. apply Qmult_lt_r; [exact Hd' | apply Qlt_floor].
Qed.

Lemma hold_defaults (e : Q) :
  360 < e -> e <= 480 -> tick defaults e = Ret (Some (120%Z, 4%Z)).
Proof.
  intros H1 H2. apply (tick_hold defaults e); try assumption. reflexivity.
Qed.

Lemma ramp_defaults (e : Q) :
  e <= 360 ->
  tick defaults e = Ret (Some (((Qfloor (e / 60) + 1) * 20)%Z, 4%Z)).
Proof.
  intros H.
  apply (tick_ramp defaults e); simpl; try discriminate; try assumption;
    try reflexivity.
  eapply Qle_trans; [exact H | discriminate].
Qed.
(** C1.  With the class attributes of the file, the call at a run time of
    exactly 360 seconds takes the ramp branch and answers (140, 4): the
    hold value (120, 4) claimed for every run time from 360 to 479 is not
    what the code returns at 360. *)
Theorem tick_360_is_not_the_peak :
  tick defaults 360 = Ret (Some (140%Z, 4%Z)) /\
  tick defaults 360 <> Ret (Some (120%Z, 4%Z)).
Proof.
  split; [vm_compute; reflexivity | vm_compute; discriminate].
Qed.

(** C2, as stated, fails: at a run time of exactly 480 seconds the call
    still answers (120, 4) and does not return [None]. *)
Lemma tick_480_does_not_stop :
  tick defaults 480 = Ret (Some (120%Z, 4%Z)) /\ tick defaults 480 <> Ret None.
Proof.
  split; [vm_compute; reflexivity | vm_compute; discriminate].
Qed.

(** C2, amended.  [tick] returns [None] exactly at the run times strictly
    greater than [step_duration * max_steps + hold_steps * step_duration];
    with the class attributes of the file this is every run time above 480,
    while at 480 itself the answer is still (120, 4). *)
Theorem tick_stops_strictly_after_hold :
  (forall (self : StepLoadShape) (e : Q),
      tick self e = Ret None <->
      inject_Z (step_duration self * max_steps self
                + hold_steps self * step_duration self) < e) /\
  (forall e : Q, tick defaults e = Ret None <-> 480 < e) /\
  tick defaults 480 = Ret (Some (120%Z, 4%Z)).
Proof.
  assert (forall (self : StepLoadShape) (e : Q),
      tick self e = Ret None <->
      inject_Z (step_duration self * max_steps self
                + hold_steps self * step_duration self) < e) as Hgen.
  { intros self e. split; [apply tick_none_inv | apply tick_stop]. }
  split; [exact Hgen |]. split; [| reflexivity].
  intros e. apply (Hgen defaults e).
Qed.

(** C4.  With the class attributes of the file the ramp is a staircase
    indexed from one by [floor(elapsed / 60) + 1]: the calls at 0 and 59
    answer (20, 4), the call at 60 answers (40, 4), the call at 359 answers
    (120, 4); every run time up to 360 gets
    [(floor(elapsed / 60) + 1) * 20] users, and step [k + 1] covers the run
    times from [60 * k] up to, not including, [60 * (k + 1)]. *)
Theorem ramp_staircase :
  tick defaults 0 = Ret (Some (20%Z, 4%Z)) /\
  tick defaults 59 = Ret (Some (20%Z, 4%Z)) /\
  tick defaults 60 = Ret (Some (40%Z, 4%Z)) /\
  tick defaults 359 = Ret (Some (120%Z, 4%Z)) /\
  (forall e : Q, e <= 360 ->
     tick defaults e = Ret (Some (((Qfloor (e / 60) + 1) * 20)%Z, 4%Z))) /\
  (forall (k : Z) (e : Q), (0 <= k < 6)%Z ->
     inject_Z (60 * k) <= e -> e < inject_Z (60 * (k + 1)) ->
     tick defaults e = Ret (Some (((k + 1) * 20)%Z, 4%Z))).
Proof.
  repeat (split; [reflexivity |]).
  split; [exact ramp_defaults |].
  intros k e Hk Hlo Hhi.
  assert (e <= 360) as He.
  { apply Qlt_le_weak. eapply Qlt_le_trans; [exact Hhi |].
    change 360 with (inject_Z 360). rewrite <- Zle_Qle. lia. }
  rewrite (ramp_defaults e He).
  change (e / 60) with (e / inject_Z 60).
  rewrite (floordiv_step e 60 k); [reflexivity | lia | |].
  - rewrite Z.mul_comm. exact Hlo.
  - rewrite Z.mul_comm. exact Hhi.
Qed.

Lemma ramp_staircase_witness :
  tick defaults (61 # 2) = Ret (Some (20%Z, 4%Z)) /\
  tick defaults (150 # 1) = Ret (Some (60%Z, 4%Z)).
Proof.
  destruct ramp_staircase as (_ & _ & _ & _ & Hfloor & Hstep).
  split.
  - apply (Hfloor (61 # 2)). discriminate.
  - apply (Hstep 2%Z (150 # 1)); [lia | discriminate | reflexivity].
Defined.


(** ** The float conversions at work *)

(** A step duration of [2 ** 53 + 1] becomes the float [2 ** 53]: at a
    run time of [2 ** 53] the quotient is 1 and the step is 2. *)
Example tick_rounds_the_divisor :
  tick {| step_duration := 2 ^ 53 + 1; step_users := 20;
          max_steps := 1; hold_steps := 2 |} (inject_Z (2 ^ 53))
    = Ret (Some (40%Z, 4%Z)).
Proof. vm_compute. reflexivity. Qed.

(** Past the range of doubles the conversions raise. *)
Example tick_overflow_step_users :
  tick {| step_duration := 60; step_users := 10 ^ 400;
          max_steps := 6; hold_steps := 2 |} 0
    = Raise OverflowError.
Proof. vm_compute. reflexivity. Qed.

Example tick_overflow_step_duration :
  tick {| step_duration := 10 ^ 400; step_users := 0;
          max_steps := 6; hold_steps := 2 |} 100
    = Raise OverflowError.
Proof. vm_compute. reflexivity. Qed.

(** ** The end of the ramp *)

Lemma tick_at_ramp_end (self : StepLoadShape) :
  (0 < step_duration self < 2 ^ 53)%Z -> (0 <= hold_steps self)%Z ->
  (Z.abs (step_users self) < 5 * 2 ^ 50)%Z ->
  tick self (inject_Z (step_duration self * max_steps self)) =
    Ret (Some (((max_steps self + 1) * step_users self)%Z,
               Z.max 1 (step_users self / 5)%Z)).
Proof.
  intros Hd Hh Hu.
  rewrite tick_ramp; try assumption.
  - rewrite (floordiv_step _ (step_duration self) (max_steps self)).
    + reflexivity.
    + lia.
    + rewrite <- Zle_Qle. lia.
    + rewrite <- Zlt_Qlt. lia.
  - rewrite <- Zle_Qle. nia.
  - apply Qle_refl.
  - lia.
  - lia.
Qed.

(** C10.  At a run time exactly equal to [step_duration * max_steps] the
    call takes the ramp branch and asks for
    [(max_steps + 1) * step_users] users, one step above the value
    [max_steps * step_users] held afterwards; this for a step duration
    and a ramp end below [2 ** 53] and [step_users] below [5 * 2 ** 50]
    in size, where the floats of the code hold the numbers exactly.  With
    the class attributes of the file: 140 users at 360 seconds, then 120
    users for every run time above 360 and up to 480; so the target is
    not non-decreasing in the run time. *)
Theorem ramp_end_overshoots_peak :
  (forall self : StepLoadShape,
      (0 < step_duration self < 2 ^ 53)%Z -> (0 <= hold_steps self)%Z ->
      (Z.abs (step_duration self * max_steps self) < 2 ^ 53)%Z ->
      (Z.abs (step_users self) < 5 * 2 ^ 50)%Z ->
      tick self (inject_Z (step_duration self * max_steps self)) =
        Ret (Some (((max_steps self + 1) * step_users self)%Z,
                   Z.max 1 (step_users self / 5)%Z))) /\
  (forall (self : StepLoadShape) (e : Q),
      (Z.abs (step_users self) < 5 * 2 ^ 50)%Z ->
      inject_Z (step_duration self * max_steps self) < e ->
      e <= inject_Z (step_duration self * max_steps self
                     + hold_steps self * step_duration self) ->
      tick self e =
        Ret (Some ((max_steps self * step_users self)%Z,
                   Z.max 1 (step_users self / 5)%Z))) /\
  tick defaults 360 = Ret (Some (140%Z, 4%Z)) /\
  (forall e : Q, 360 < e -> e <= 480 ->
      tick defaults e = Ret (Some (120%Z, 4%Z))) /\
  ~ (forall (e1 e2 : Q) (t1 t2 : Z),
        e1 <= e2 ->
        target_of (tick defaults e1) = Some t1 ->
        target_of (tick defaults e2) = Some t2 ->
        (t1 <= t2)%Z).
Proof.
  split; [intros self Hd Hh _ Hu; apply tick_at_ramp_end; assumption |].
  split; [intros self e Hu Hlo Hhi; apply tick_hold; assumption |].
  split; [reflexivity |].
  split; [exact hold_defaults |].
  intros Hmono.
  specialize (Hmono 360 361 140%Z 120%Z).
  assert (140 <= 120)%Z; [| lia].
  apply Hmono; [discriminate | reflexivity | reflexivity].
Qed.

Lemma ramp_end_overshoots_peak_witness :
  tick defaults (inject_Z (60 * 6)) = Ret (Some (((6 + 1) * 20)%Z, 4%Z)) /\
  tick defaults (721 # 2) = Ret (Some (120%Z, 4%Z)).
Proof.
  destruct ramp_end_overshoots_peak as (Hend & _ & _ & Hhold & _).
  split.
  - apply (Hend defaults); simpl; try lia; reflexivity.
  - apply (Hhold (721 # 2)); [reflexivity | discriminate].
Defined.

(** ** A zero configuration *)

(** C5.  With [max_steps = 0] and the other attributes as in the file, the
    call at run time 0 does not stop the test and asks for 20 users, not
    for 0: the ramp branch is taken at [0 <= 0] and its step number is 1. *)
Theorem no_steps_first_tick_asks_for_users :
  tick no_steps 0 = Ret (Some (20%Z, 4%Z)) /\
  target_of (tick no_steps 0) <> Some 0%Z.
Proof.
  split; [vm_compute; reflexivity | vm_compute; discriminate].
Qed.

(** X1.  With [step_users = 0] and a step duration other than 0 and
    below [2 ** 53] in size, every call either stops the test or answers
    the pair (0, 1); none raises. *)
Lemma zero_users_target (self : StepLoadShape) (e : Q) :
  step_users self = 0%Z -> step_duration self <> 0%Z ->
  (Z.abs (step_duration self) < 2 ^ 53)%Z ->
  tick self e = Ret None \/ tick self e = Ret (Some (0%Z, 1%Z)).
Proof.
  intros Hu Hd Hbd. unfold tick.
  destruct (gt e _); [left; reflexivity | right].
  rewrite (int_floordiv_exact _ _ Hbd Hd).
  rewrite spawn_rate_exact by (rewrite Hu; reflexivity).
  rewrite Hu.
  destruct (le e _); unfold Py.bind; rewrite Z.mul_0_r; reflexivity.
Qed.

Lemma zero_users_target_witness :
  tick no_users 100 = Ret None \/ tick no_users 100 = Ret (Some (0%Z, 1%Z)).
Proof.
  apply (zero_users_target no_users 100);
    [reflexivity | discriminate | reflexivity].
Defined.

(** X2.  With [max_steps = 0] and [step_users] below [5 * 2 ** 50] in
    size, the target is 0 at every run time above 0 and up to
    [hold_steps * step_duration]. *)
Lemma zero_steps_target (self : StepLoadShape) (e : Q) :
  max_steps self = 0%Z ->
  (Z.abs (step_users self) < 5 * 2 ^ 50)%Z ->
  0 < e -> e <= inject_Z (hold_steps self * step_duration self) ->
  tick self e = Ret (Some (0%Z, Z.max 1 (step_users self / 5)%Z)).
Proof.
  intros Hm Hu Hlo Hhi.
  rewrite tick_hold; [rewrite Hm; reflexivity | | | exact Hu];
    rewrite Hm, Z.mul_0_r; assumption.
Qed.

Lemma zero_steps_target_witness :
  tick no_steps 30 = Ret (Some (0%Z, Z.max 1 (20 / 5)%Z)).
Proof.
  apply (zero_steps_target no_steps 30);
    [reflexivity | reflexivity | reflexivity | discriminate].
Defined.

(** With [step_duration = 0] a call in the ramp branch raises
    [ZeroDivisionError]. *)
Lemma zero_duration_raises (self : StepLoadShape) (e : Q) :
  step_duration self = 0%Z -> e <= 0 ->
  tick self e = Raise ZeroDivisionError.
Proof.
  intros Hd He.
  apply tick_ramp_zero_duration; [| | exact Hd];
    rewrite Hd; simpl; rewrite ?Z.mul_0_r; exact He.
Qed.

(** X3.  At a whole number [n] of seconds within the ramp, the step
    number is the integer floor division [n // step_duration] plus 1;
    this for [n] and a step duration below [2 ** 53] and [step_users]
    below [5 * 2 ** 50] in size. *)
Lemma tick_whole_seconds (self : StepLoadShape) (n : Z) :
  step_duration self <> 0%Z ->
  (Z.abs (step_duration self) < 2 ^ 53)%Z ->
  (Z.abs (step_users self) < 5 * 2 ^ 50)%Z ->
  (Z.abs n < 2 ^ 53)%Z ->
  (n <= step_duration self * max_steps self)%Z ->
  (0 <= hold_steps self * step_duration self)%Z ->
  tick self (inject_Z n) =
    Ret (Some (((n / step_duration self + 1) * step_users self)%Z,
               Z.max 1 (step_users self / 5)%Z)).
Proof.
  intros Hd Hbd Hbu _ Hn Hh.
  rewrite tick_ramp; try assumption;
    [| rewrite <- Zle_Qle; lia | rewrite <- Zle_Qle; lia].
  rewrite <- Zdiv_Qdiv. reflexivity.
Qed.

Lemma tick_whole_seconds_witness :
  tick defaults (inject_Z 125) = Ret (Some (((125 / 60 + 1) * 20)%Z, Z.max 1 (20 / 5)%Z)).
Proof.
  apply (tick_whole_seconds defaults 125); simpl; try lia; reflexivity.
Defined.

(** ** The spawn rate *)

(** C6, as stated, fails: with [step_users = 45035996273704965] the
    division [step_users / 5] is rounded to a double and the spawn rate
    is 9007199254740992, while [max(1, floor(step_users / 5))] is
    9007199254740993. *)
Lemma spawn_rate_rounds_in_doubles :
  tick many_users 0 = Ret (Some (45035996273704965%Z, 9007199254740992%Z)) /\
  Z.max 1 (step_users many_users / 5) = 9007199254740993%Z.
Proof.
  split; vm_compute; reflexivity.
Qed.

(** C6, amended.  Whenever [tick] answers a pair, in the ramp branch as
    in the hold branch, its spawn rate is the one value
    [max(1, int(step_users / 5))] of the float division, which is at
    least 1; it is [max(1, floor(step_users / 5))] when [step_users] is
    below [5 * 2 ** 50] in size, and 4 when [step_users] is 20. *)
Theorem spawn_rate_is_constant (self : StepLoadShape) (e : Q) (t r : Z) :
  tick self e = Ret (Some (t, r)) ->
  spawn_rate self = Ret r /\
  (1 <= r)%Z /\
  ((Z.abs (step_users self) < 5 * 2 ^ 50)%Z ->
   r = Z.max 1 (step_users self / 5)%Z) /\
  (step_users self = 20%Z -> r = 4%Z).
Proof.
  intros H.
  assert (spawn_rate self = Ret r) as Hr.
  { unfold tick in H.
    destruct (gt e _); [discriminate H |].
    destruct (le e _).
    - destruct (int_floordiv e (step_duration self)); [| discriminate H].
      destruct (spawn_rate self); [| discriminate H].
      unfold Py.bind in H. congruence.
    - destruct (spawn_rate self); [| discriminate H].
      unfold Py.bind in H. congruence. }
  split; [exact Hr |].
  assert (forall u, (Z.abs (step_users self) < 5 * 2 ^ 50)%Z ->
                    u = step_users self -> r = Z.max 1 (u / 5)%Z) as Hin.
  { intros u Hu ->. rewrite (spawn_rate_exact self Hu) in Hr. congruence. }
  split; [| split].
  - unfold spawn_rate in Hr.
    destruct (truediv (step_users self) 5); [| discriminate Hr].
    unfold Py.bind in Hr. injection Hr as <-. lia.
  - intros Hu. apply Hin; [exact Hu | reflexivity].
  - intros Hu. rewrite (Hin 20%Z); [reflexivity | rewrite Hu; reflexivity | symmetry; exact Hu].
Qed.

Lemma spawn_rate_is_constant_witness :
  (spawn_rate defaults = Ret 4%Z /\ (1 <= 4)%Z /\
   ((Z.abs (step_users defaults) < 5 * 2 ^ 50)%Z ->
    4%Z = Z.max 1 (step_users defaults / 5)%Z) /\
   (step_users defaults = 20%Z -> 4%Z = 4%Z)) /\
  (spawn_rate many_users = Ret 9007199254740992%Z /\
   (1 <= 9007199254740992)%Z /\
   ((Z.abs (step_users many_users) < 5 * 2 ^ 50)%Z ->
    9007199254740992%Z = Z.max 1 (step_users many_users / 5)%Z) /\
   (step_users many_users = 20%Z -> 9007199254740992%Z = 4%Z)).
Proof.
  split.
  - apply (spawn_rate_is_constant defaults 400 120%Z 4%Z). reflexivity.
  - apply (spawn_rate_is_constant many_users 0 45035996273704965%Z).
    vm_compute. reflexivity.
Defined.

(** * Further properties of the load shape *)

(** X5.  With a step duration below [2 ** 53] and [step_users] below
    [5 * 2 ** 50] in size, [tick] raises exactly when [step_duration] is 0
    and the run time is not above 0, and then it is
    [ZeroDivisionError]. *)
Theorem tick_raises_iff (self : StepLoadShape) (e : Q) (x : exn) :
  (Z.abs (step_duration self) < 2 ^ 53)%Z ->
  (Z.abs (step_users self) < 5 * 2 ^ 50)%Z ->
  (tick self e = Raise x <->
   (x = ZeroDivisionError /\ step_duration self = 0%Z /\ e <= 0)).
Proof.
  intros Hbd Hbu. split.
  - intros H. unfold tick in H. rewrite (spawn_rate_exact _ Hbu) in H.
    destruct (gt e _); [discriminate H |].
    destruct (le e _) eqn:Hle; [| discriminate H].
    destruct (Z.eq_dec (step_duration self) 0) as [Hz | Hnz].
    + apply le_true in Hle. rewrite Hz in Hle, H.
      rewrite int_floordiv_zero in H. unfold Py.bind in H.
      injection H as <-. repeat split; assumption.
    + rewrite (int_floordiv_exact _ _ Hbd Hnz) in H. discriminate H.
  - intros (-> & Hd & He). apply zero_duration_raises; assumption.
Qed.

Lemma tick_raises_iff_witness :
  tick no_duration 0 = Raise ZeroDivisionError <->
  (ZeroDivisionError = ZeroDivisionError /\
   step_duration no_duration = 0%Z /\ 0 <= 0).
Proof.
  apply (tick_raises_iff no_duration 0 ZeroDivisionError); reflexivity.
Defined.

(** X6.  With a positive step duration below [2 ** 53] and no negative
    [max_steps], an answered target at a run time from 0 on and below
    [2 ** 53] is a whole number [k] of steps of [step_users] users, with
    [k] between 0 and [max_steps + 1]; [max_steps + 1] steps are asked
    for only at the run time [step_duration * max_steps] itself. *)
Theorem tick_target_steps (self : StepLoadShape) (e : Q) (t r : Z) :
  (0 < step_duration self < 2 ^ 53)%Z -> (0 <= max_steps self)%Z ->
  0 <= e -> e < inject_Z (2 ^ 53) ->
  tick self e = Ret (Some (t, r)) ->
  exists k : Z,
    t = (k * step_users self)%Z /\
    (0 <= k <= max_steps self + 1)%Z /\
    (k = (max_steps self + 1)%Z ->
     e == inject_Z (step_duration self * max_steps self)).
Proof.
  intros Hd Hm He _ H.
  assert (0 < step_duration self)%Z as Hd0 by lia.
  destruct (tick_some_inv self e t r ltac:(lia) H)
    as [_ [(Hle & _ & Ht) | [Hlt Ht]]].
  - destruct (floordiv_bounds e (step_duration self) Hd0) as [Hlo Hhi].
    set (f := Qfloor (e / inject_Z (step_duration self))) in *.
    exists (f + 1)%Z. split; [exact Ht |].
    assert (0 < (f + 1) * step_duration self)%Z as Hpos.
    { rewrite Zlt_Qlt. eapply Qle_lt_trans; [exact He | exact Hhi]. }
    assert (f * step_duration self <= step_duration self * max_steps self)%Z
      as Hup.
    { rewrite Zle_Qle. eapply Qle_trans; [exact Hlo | exact Hle]. }
    split; [nia |].
    intros Hk. assert (f = max_steps self) as Hf by lia.
    apply Qle_antisym; [exact Hle |].
    rewrite Hf, Z.mul_comm in Hlo. exact Hlo.
  - exists (max_steps self). split; [exact Ht |]. split; lia.
Qed.

Lemma tick_target_steps_witness :
  exists k : Z,
    140%Z = (k * 20)%Z /\ (0 <= k <= 6 + 1)%Z /\
    (k = (6 + 1)%Z -> 360 == inject_Z (60 * 6)).
Proof.
  apply (tick_target_steps defaults 360 140%Z 4%Z);
    [simpl; lia | discriminate | discriminate | reflexivity | reflexivity].
Defined.

(** X7.  With a positive step duration below [2 ** 53] and no negative
    [step_users], the target never decreases from one answered run time
    to a later one, both below [2 ** 53] in size, unless the earlier one
    is the run time [step_duration * max_steps] itself. *)
Theorem tick_monotone_off_ramp_end
    (self : StepLoadShape) (e1 e2 : Q) (t1 r1 t2 r2 : Z) :
  (0 < step_duration self < 2 ^ 53)%Z -> (0 <= step_users self)%Z ->
  inject_Z (- 2 ^ 53) < e1 -> e1 <= e2 -> e2 < inject_Z (2 ^ 53) ->
  ~ e1 == inject_Z (step_duration self * max_steps self) ->
  tick self e1 = Ret (Some (t1, r1)) ->
  tick self e2 = Ret (Some (t2, r2)) ->
  (t1 <= t2)%Z.
Proof.
  intros Hd Hu _ H12 _ Hne H1 H2.
  assert (0 < step_duration self)%Z as Hd0 by lia.
  destruct (floordiv_bounds e1 (step_duration self) Hd0) as [Hlo1 Hhi1].
  destruct (floordiv_bounds e2 (step_duration self) Hd0) as [Hlo2 Hhi2].
  destruct (tick_some_inv self e1 t1 r1 ltac:(lia) H1)
    as [_ [(Hle1 & _ & Ht1) | [Hlt1 Ht1]]];
    destruct (tick_some_inv self e2 t2 r2 ltac:(lia) H2)
      as [_ [(Hle2 & _ & Ht2) | [Hlt2 Ht2]]];
    set (f1 := Qfloor (e1 / inject_Z (step_duration self))) in *;
    set (f2 := Qfloor (e2 / inject_Z (step_duration self))) in *.
  - assert (f1 * step_duration self < (f2 + 1) * step_duration self)%Z.
    { rewrite Zlt_Qlt. eapply Qle_lt_trans; [exact Hlo1 |].
      eapply Qle_lt_trans; [exact H12 | exact Hhi2]. }
    clearbody f1 f2. assert (f1 <= f2)%Z by nia.
    subst t1 t2. apply Z.mul_le_mono_nonneg_r; lia.
  - assert (e1 < inject_Z (step_duration self * max_steps self)) as Hlt.
    { apply Qlt_leneq. split; assumption. }
    assert (f1 * step_duration self < step_duration self * max_steps self)%Z.
    { rewrite Zlt_Qlt. eapply Qle_lt_trans; [exact Hlo1 | exact Hlt]. }
    clearbody f1 f2. assert (f1 + 1 <= max_steps self)%Z by nia.
    subst t1 t2. apply Z.mul_le_mono_nonneg_r; lia.
  - exfalso. apply (Qlt_irrefl e1).
    eapply Qle_lt_trans; [exact H12 |].
    eapply Qle_lt_trans; [exact Hle2 | exact Hlt1].
  - subst t1 t2. lia.
Qed.

Lemma tick_monotone_off_ramp_end_witness : (40 <= 120)%Z.
Proof.
  apply (tick_monotone_off_ramp_end defaults 100 400 40%Z 4%Z 120%Z 4%Z);
    [simpl; lia | discriminate | reflexivity | discriminate | reflexivity
    | discriminate | reflexivity | reflexivity].
Defined.

(** X8.  Once [tick] has returned [None] it returns [None] at every
    later run time: a stopped test is not resumed. *)
Theorem tick_stop_is_final (self : StepLoadShape) (e e' : Q) :
  tick self e = Ret None -> e <= e' -> tick self e' = Ret None.
Proof.
  intros H Hle. apply tick_stop.
  eapply Qlt_le_trans; [apply tick_none_inv; exact H | exact Hle].
Qed.

Lemma tick_stop_is_final_witness : tick defaults 1000 = Ret None.
Proof.
  apply (tick_stop_is_final defaults 481 1000); [reflexivity | discriminate].
Defined.


(** ** Purity of [tick] *)

Lemma gt_comp (x y : Q) (n : Z) : x == y -> gt x n = gt y n.
Proof.
  intros H. unfold gt. rewrite (Qleb_comp x y H _ _ (Qeq_refl _)). reflexivity.
Qed.

Lemma le_comp (x y : Q) (n : Z) : x == y -> le x n = le y n.
Proof.
  intros H. unfold le. apply (Qleb_comp x y H _ _ (Qeq_refl _)).
Qed.

Section ObjSteps.

Context {A B : Type}.
Variable k : A -> Obj.m B.
Variable w : world.

Lemma bind_get_run_time (kq : Q -> Obj.m B) :
  Obj.bind get_run_time kq w = kq (elapsed w) w.
Proof. reflexivity. Qed.

Lemma bind_getattr (name : string) (kz : Z -> Obj.m B) :
  Obj.bind (getattr name) kz w =
    match attrs w name with
    | Some v => kz v w
    | None => (Raise AttributeError, w)
    end.
Proof.
  unfold Obj.bind, getattr. destruct (attrs w name); reflexivity.
Qed.

Lemma bind_lift (r : result A) :
  Obj.bind (lift r) k w =
    match r with
    | Ret a => k a w
    | Raise e => (Raise e, w)
    end.
Proof.
  unfold Obj.bind, lift. destruct r; reflexivity.
Qed.

End ObjSteps.

Ltac read_attr := rewrite bind_getattr; cbv beta.

(** On an object that has the four attributes the method computes
    [tick] and leaves the world as it found it. *)
Lemma tick_method_run (w : world) (self : StepLoadShape) :
  (forall a, In a shape_attrs -> attrs w a = attrs_of self a) ->
  tick_method w = (tick self (elapsed w), w).
Proof.
  intros Ha.
  assert (attrs w "step_duration" = Some (step_duration self)) as Hsd
    by (rewrite Ha; [reflexivity | simpl; tauto]).
  assert (attrs w "step_users" = Some (step_users self)) as Hsu
    by (rewrite Ha; [reflexivity | simpl; tauto]).
  assert (attrs w "max_steps" = Some (max_steps self)) as Hms
    by (rewrite Ha; [reflexivity | simpl; tauto]).
  assert (attrs w "hold_steps" = Some (hold_steps self)) as Hhs
    by (rewrite Ha; [reflexivity | simpl; tauto]).
  unfold tick_method, tick, spawn_rate.
  rewrite bind_get_run_time.
  read_attr. rewrite Hsd. read_attr. rewrite Hms. cbv zeta.
  read_attr. rewrite Hhs. read_attr. rewrite Hsd.
  destruct (gt (elapsed w) _); [reflexivity |].
  destruct (le (elapsed w) _).
  - read_attr. rewrite Hsd. rewrite bind_lift.
    destruct (int_floordiv (elapsed w) (step_duration self));
      [| reflexivity].
    cbv zeta. read_attr. rewrite Hsu. read_attr. rewrite Hsu.
    rewrite bind_lift. unfold Py.bind.
    destruct (truediv (step_users self) 5); reflexivity.
  - read_attr. rewrite Hms. read_attr. rewrite Hsu. cbv zeta.
    read_attr. rewrite Hsu. rewrite bind_lift. unfold Py.bind.
    destruct (truediv (step_users self) 5); reflexivity.
Qed.

(** A call leaves the world as it found it, whatever the object holds. *)
Lemma tick_method_frame (w : world) : snd (tick_method w) = w.
Proof.
  unfold tick_method. rewrite bind_get_run_time.
  read_attr.
  destruct (attrs w "step_duration") as [sd |] eqn:Hsd'; [| reflexivity].
  read_attr.
  destruct (attrs w "max_steps") as [ms |] eqn:Hms'; [| reflexivity].
  cbv zeta.
  read_attr. destruct (attrs w "hold_steps") as [hs |]; [| reflexivity].
  read_attr. rewrite Hsd'.
  destruct (gt (elapsed w) _); [reflexivity |].
  destruct (le (elapsed w) _).
  - read_attr. rewrite Hsd'. rewrite bind_lift.
    destruct (int_floordiv (elapsed w) sd); [| reflexivity].
    cbv zeta.
    read_attr. destruct (attrs w "step_users") as [su |] eqn:Hsu;
      [| reflexivity].
    read_attr. rewrite Hsu. rewrite bind_lift.
    destruct (truediv su 5); reflexivity.
  - read_attr. rewrite Hms'.
    read_attr. destruct (attrs w "step_users") as [su |] eqn:Hsu;
      [| reflexivity].
    cbv zeta. read_attr. rewrite Hsu. rewrite bind_lift.
    destruct (truediv su 5); reflexivity.
Qed.

(** C7.  A call of [tick] changes nothing of what it can reach:
    attributes, run time and output are as before it, so a second call
    finds what the first found.  Its answer is settled by the run time
    and the four attributes it reads: two calls that see equal run times
    and the same four attributes answer the same, whatever else differs
    between the two worlds and whichever calls came before; and on an
    object holding the attributes of a shape the answer is [tick] of that
    shape and the run time. *)
Theorem tick_is_pure (w1 w2 : world) :
  elapsed w1 == elapsed w2 ->
  (forall a, In a shape_attrs -> attrs w1 a = attrs w2 a) ->
  fst (tick_method w1) = fst (tick_method w2) /\
  snd (tick_method w1) = w1 /\
  snd (tick_method w2) = w2 /\
  fst (tick_method (snd (tick_method w1))) = fst (tick_method w1) /\
  (forall self : StepLoadShape,
      (forall a, In a shape_attrs -> attrs w1 a = attrs_of self a) ->
      fst (tick_method w1) = tick self (elapsed w1) /\
      fst (tick_method w2) = tick self (elapsed w1)).
Proof.
  intros He Ha.
  assert (fst (tick_method w1) = fst (tick_method w2)) as Hsame.
  { unfold tick_method. rewrite !bind_get_run_time.
    do 2 read_attr. rewrite <- (Ha "step_duration"%string) by (simpl; tauto).
    destruct (attrs w1 "step_duration") as [sd |] eqn:Hsd; [| reflexivity].
    do 2 read_attr. rewrite <- (Ha "max_steps"%string) by (simpl; tauto).
    destruct (attrs w1 "max_steps") as [ms |] eqn:Hms; [| reflexivity].
    cbv zeta.
    do 2 read_attr. rewrite <- (Ha "hold_steps"%string) by (simpl; tauto).
    destruct (attrs w1 "hold_steps") as [hs |]; [| reflexivity].
    do 2 read_attr. rewrite <- (Ha "step_duration"%string) by (simpl; tauto).
    rewrite Hsd.
    rewrite <- (gt_comp _ _ (sd * ms + hs * sd) He).
    rewrite <- (le_comp _ _ (sd * ms) He).
    destruct (gt (elapsed w1) _); [reflexivity |].
    destruct (le (elapsed w1) _).
    - do 2 read_attr. rewrite <- (Ha "step_duration"%string) by (simpl; tauto).
      rewrite Hsd, !bind_lift.
      rewrite <- (int_floordiv_comp _ _ sd He).
      destruct (int_floordiv (elapsed w1) sd); [| reflexivity].
      cbv zeta.
      do 2 read_attr. rewrite <- (Ha "step_users"%string) by (simpl; tauto).
      destruct (attrs w1 "step_users") as [su |] eqn:Hsu; [| reflexivity].
      do 2 read_attr. rewrite <- (Ha "step_users"%string) by (simpl; tauto).
      rewrite Hsu, !bind_lift.
      destruct (truediv su 5); reflexivity.
    - do 2 read_attr. rewrite <- (Ha "max_steps"%string) by (simpl; tauto).
      rewrite Hms.
      do 2 read_attr. rewrite <- (Ha "step_users"%string) by (simpl; tauto).
      destruct (attrs w1 "step_users") as [su |] eqn:Hsu; [| reflexivity].
      cbv zeta.
      do 2 read_attr. rewrite <- (Ha "step_users"%string) by (simpl; tauto).
      rewrite Hsu, !bind_lift.
      destruct (truediv su 5); reflexivity. }
  split; [exact Hsame |].
  split; [apply tick_method_frame |]. split; [apply tick_method_frame |].
  split; [rewrite tick_method_frame; reflexivity |].
  intros self Hself.
  rewrite <- Hsame, (tick_method_run w1 self Hself). split; reflexivity.
Qed.

Lemma tick_is_pure_witness :
  fst (tick_method first_world) = fst (tick_method later_world) /\
  snd (tick_method first_world) = first_world /\
  snd (tick_method later_world) = later_world /\
  fst (tick_method (snd (tick_method first_world)))
    = fst (tick_method first_world) /\
  (forall self : StepLoadShape,
      (forall a, In a shape_attrs -> attrs first_world a = attrs_of self a) ->
      fst (tick_method first_world) = tick self (elapsed first_world) /\
      fst (tick_method later_world) = tick self (elapsed first_world)).
Proof.
  apply (tick_is_pure first_world later_world); [reflexivity |].
  intros a [<- | [<- | [<- | [<- | []]]]]; reflexivity.
Defined.
(** ** The drawn parameters *)

(** C8.  [status_check] draws from a list of five codes holding 200 three
    times, 404 once and 500 once; over the five equally likely indices the
    request for status 200 is sent with frequency 3/5, those for 404 and
    500 with frequency 1/5 each, and no other code is ever requested. *)
Theorem status_check_distribution :
  List.length status_codes = 5%nat /\
  count_occ Z.eq_dec status_codes 200%Z = 3%nat /\
  count_occ Z.eq_dec status_codes 404%Z = 1%nat /\
  count_occ Z.eq_dec status_codes 500%Z = 1%nat /\
  frequency 5 status_check (path_is "/status/200") = 3 # 5 /\
  frequency 5 status_check (path_is "/status/404") = 1 # 5 /\
  frequency 5 status_check (path_is "/status/500") = 1 # 5 /\
  (forall i : nat, (i < 5)%nat ->
     exists code : Z,
       In code [200; 404; 500]%Z /\
       status_check i =
         Ret (client_get ("/status/" ++ str code) ("GET /status/" ++ str code) 30)) /\
  (forall (i : nat) (r : Request),
     status_check i = Ret r ->
     In (path r) ["/status/200"; "/status/404"; "/status/500"]%string).
Proof.
  repeat (split; [reflexivity |]).
  split.
  - intros i Hi.
    destruct i as [| [| [| [| [| i]]]]]; try lia.
    1-3: exists 200%Z; split; [simpl; tauto | reflexivity].
    + exists 404%Z; split; [simpl; tauto | reflexivity].
    + exists 500%Z; split; [simpl; tauto | reflexivity].
  - intros i r H.
    destruct i as [| [| [| [| [| i]]]]];
      try (injection H as <-; simpl; tauto).
    destruct i; discriminate H.
Qed.

Lemma status_check_distribution_witness :
  In (path (client_get "/status/404" "GET /status/404" 30))
     ["/status/200"; "/status/404"; "/status/500"]%string.
Proof.
  destruct status_check_distribution as (_ & _ & _ & _ & _ & _ & _ & _ & Hin).
  apply (Hin 3%nat). reflexivity.
Defined.

(** C9.  Whatever index below 3 the generator draws, [delayed] sends one
    request whose path is ["/delay/"] followed by the drawn delay, an
    element of 1, 2, 3; no request of [delayed] has another path. *)
Theorem delayed_suffix_in_range :
  (forall i : nat, (i < 3)%nat ->
     exists delay : Z,
       In delay [1; 2; 3]%Z /\
       random_choice delays i = Ret delay /\
       delayed i =
         Ret (client_get ("/delay/" ++ str delay) ("GET /delay/" ++ str delay) 60)) /\
  (forall (i : nat) (r : Request),
     delayed i = Ret r ->
     In (path r) ["/delay/1"; "/delay/2"; "/delay/3"]%string).
Proof.
  split.
  - intros i Hi.
    destruct i as [| [| [| i]]]; try lia.
    + exists 1%Z; split; [simpl; tauto | split; reflexivity].
    + exists 2%Z; split; [simpl; tauto | split; reflexivity].
    + exists 3%Z; split; [simpl; tauto | split; reflexivity].
  - intros i r H.
    destruct i as [| [| [| i]]];
      try (injection H as <-; simpl; tauto).
    destruct i; discriminate H.
Qed.

Lemma delayed_suffix_in_range_witness :
  (exists delay : Z,
     In delay [1; 2; 3]%Z /\
     random_choice delays 2 = Ret delay /\
     delayed 2 =
       Ret (client_get ("/delay/" ++ str delay) ("GET /delay/" ++ str delay) 60)) /\
  In (path (client_get "/delay/1" "GET /delay/1" 60))
     ["/delay/1"; "/delay/2"; "/delay/3"]%string.
Proof.
  destruct delayed_suffix_in_range as (Hdraw & Hin).
  split.
  - apply (Hdraw 2%nat). lia.
  - apply (Hin 0%nat). reflexivity.
Defined.

(** ** The stop hook *)

(** C3.  When [environment.runner] is [None] the hook prints the summary
    header and then raises [AttributeError] at [environment.runner.stats],
    which is read before the test on [environment.runner]. *)
Theorem on_test_stop_raises_without_runner (out : list line) :
  on_test_stop {| runner := None |} out
    = (Raise AttributeError, out ++ [[Lit "Test finished. Summary:"]]).
Proof. reflexivity. Qed.

(** X4.  With a runner the hook prints the header and the three
    statistics and returns. *)
Lemma on_test_stop_with_runner (rn : Runner) (out : list line) :
  on_test_stop {| runner := Some rn |} out
    = (Ret tt,
       out ++ [[Lit "Test finished. Summary:"]]
           ++ [[Lit "  Total requests: ";
                IntVal (num_requests (total (stats rn)))]]
           ++ [[Lit "  Failures: ";
                IntVal (num_failures (total (stats rn)))]]
           ++ [[Lit "  Avg response time (ms): ";
                FloatVal (avg_response_time (total (stats rn)))]]).
Proof.
  unfold on_test_stop, Hook.bind, print, get_stats, Hook.ret. simpl.
  rewrite <- !app_assoc. reflexivity.
Qed.

(** * Properties of [random_string] *)

Lemma map_result_ret {A B : Type} (f : A -> result B) (h : A -> B) (l : list A) :
  (forall x, In x l -> f x = Ret (h x)) ->
  map_result f l = Ret (map h l).
Proof.
  induction l as [| x rest IH]; intros Hf; simpl; [reflexivity |].
  rewrite (Hf x) by (left; reflexivity).
  rewrite IH by (intros y Hy; apply Hf; right; exact Hy).
  reflexivity.
Qed.

Lemma map_result_inv {A B : Type} (f : A -> result B) (l : list A) (ys : list B) :
  map_result f l = Ret ys -> Forall2 (fun x y => f x = Ret y) l ys.
Proof.
  revert ys. induction l as [| x rest IH]; intros ys H; simpl in H.
  - injection H as <-. constructor.
  - destruct (f x) as [y |] eqn:Hx; [| discriminate H].
    destruct (map_result f rest) as [ys' |]; [| discriminate H].
    simpl in H. injection H as <-.
    constructor; [exact Hx | apply IH; reflexivity].
Qed.

Lemma Forall2_nth_error_left {A B : Type} (R : A -> B -> Prop)
    (l : list A) (ys : list B) (j : nat) (x : A) :
  Forall2 R l ys -> nth_error l j = Some x ->
  exists y, nth_error ys j = Some y /\ R x y.
Proof.
  intros H. revert j. induction H as [| a b l' ys' Hab _ IH]; intros j Hj.
  - destruct j; discriminate Hj.
  - destruct j as [| j]; simpl in *.
    + injection Hj as <-. exists b. split; [reflexivity | exact Hab].
    + apply IH. exact Hj.
Qed.

Lemma map_nth_error_seq {A : Type} (l : list A) (d : A) :
  map (fun j => nth j l d) (seq 0 (List.length l)) = l.
Proof.
  induction l as [| x rest IH]; simpl; [reflexivity |].
  f_equal. rewrite <- seq_shift, map_map. exact IH.
Qed.

Lemma length_string_of_list_ascii (l : list Ascii.ascii) :
  String.length (string_of_list_ascii l) = List.length l.
Proof.
  induction l as [| c rest IH]; simpl; [reflexivity | now rewrite IH].
Qed.

Lemma alphabet_length : List.length alphabet = 62%nat.
Proof. reflexivity. Qed.

Lemma alphabet_alnum (c : Ascii.ascii) : In c alphabet -> is_alnum c = true.
Proof.
  assert (forallb is_alnum alphabet = true) as H by (vm_compute; reflexivity).
  rewrite forallb_forall in H. apply H.
Qed.

Lemma alnum_in_alphabet (c : Ascii.ascii) :
  is_alnum c = true ->
  nth_error alphabet (index_in c alphabet) = Some c /\
  (index_in c alphabet < 62)%nat.
Proof.
  destruct c as [[] [] [] [] [] [] [] []];
    intros H; vm_compute in H; try discriminate H;
    (split; [reflexivity | vm_compute; lia]).
Qed.

(** Each place of the population holds a character of its own. *)
Lemma alphabet_place (i : nat) (c : Ascii.ascii) :
  nth_error alphabet i = Some c -> index_in c alphabet = i.
Proof.
  intros H.
  assert (forallb
            (fun j => match nth_error alphabet j with
                      | Some x => Nat.eqb (index_in x alphabet) j
                      | None => false
                      end) (seq 0 62) = true) as Hall
    by (vm_compute; reflexivity).
  rewrite forallb_forall in Hall.
  assert (i < 62)%nat as Hi.
  { rewrite <- alphabet_length. apply nth_error_Some. congruence. }
  specialize (Hall i). rewrite H in Hall.
  apply Nat.eqb_eq, Hall, in_seq. lia.
Qed.

Lemma random_choices_in_range (k : nat) (draw : nat -> nat) :
  (forall j, (j < k)%nat -> (draw j < 62)%nat) ->
  random_choices alphabet k draw
    = Ret (map (fun j => nth (draw j) alphabet Ascii.zero) (seq 0 k)).
Proof.
  intros Hd. apply map_result_ret. intros j Hj.
  apply in_seq in Hj. unfold random_choice.
  rewrite (nth_error_nth' alphabet Ascii.zero);
    [reflexivity | rewrite alphabet_length; apply Hd; lia].
Qed.

Lemma random_string_in_range (n : Z) (draw : nat -> nat) :
  (forall j, (j < Z.to_nat n)%nat -> (draw j < 62)%nat) ->
  exists s : string,
    random_string n draw = Ret s /\
    String.length s = Z.to_nat n /\
    (forall c, In c (list_ascii_of_string s) -> is_alnum c = true) /\
    ((n <= 0)%Z -> s = EmptyString).
Proof.
  intros Hd. unfold random_string.
  rewrite (random_choices_in_range _ _ Hd). unfold Py.bind.
  eexists. split; [reflexivity |].
  split; [| split].
  - rewrite length_string_of_list_ascii, length_map, length_seq. reflexivity.
  - intros c Hc. rewrite list_ascii_of_string_of_list_ascii in Hc.
    apply in_map_iff in Hc. destruct Hc as (j & <- & Hj).
    apply in_seq in Hj. apply alphabet_alnum, nth_In.
    rewrite alphabet_length. apply Hd. lia.
  - intros Hn. replace (Z.to_nat n) with 0%nat by lia. reflexivity.
Qed.

(** X9.  When every drawn index is below 62, [random_string(n)] returns
    a string of exactly [n] characters (none for [n <= 0]), each of them
    a letter or a digit. *)
Theorem random_string_alnum (n : Z) (draw : nat -> nat) :
  (forall j, (j < Z.to_nat n)%nat -> (draw j < 62)%nat) ->
  exists s : string,
    random_string n draw = Ret s /\
    String.length s = Z.to_nat n /\
    (forall c, In c (list_ascii_of_string s) -> is_alnum c = true) /\
    ((n <= 0)%Z -> s = EmptyString).
Proof. exact (random_string_in_range n draw). Qed.

Lemma random_string_alnum_witness :
  exists s : string,
    random_string 6 (fun j => (10 * j)%nat) = Ret s /\
    String.length s = Z.to_nat 6 /\
    (forall c, In c (list_ascii_of_string s) -> is_alnum c = true) /\
    ((6 <= 0)%Z -> s = EmptyString).
Proof.
  apply (random_string_alnum 6 (fun j => (10 * j)%nat)).
  intros j Hj. change (Z.to_nat 6) with 6%nat in Hj. lia.
Defined.

(** X10.  Every string of letters and digits is a value of
    [random_string] at its own length, for draws that are all below 62. *)
Theorem random_string_onto (s : string) :
  (forall c, In c (list_ascii_of_string s) -> is_alnum c = true) ->
  exists draw : nat -> nat,
    (forall j, (draw j < 62)%nat) /\
    random_string (Z.of_nat (String.length s)) draw = Ret s.
Proof.
  intros Hs.
  set (cs := list_ascii_of_string s) in *.
  exists (fun j => match nth_error cs j with
                   | Some c => index_in c alphabet
                   | None => 0%nat
                   end).
  split.
  - intros j. destruct (nth_error cs j) as [c |] eqn:Hj; [| lia].
    apply alnum_in_alphabet, Hs. eapply nth_error_In. exact Hj.
  - unfold random_string, random_choices. rewrite Nat2Z.id.
    assert (String.length s = List.length cs) as Hlen.
    { subst cs. rewrite <- (string_of_list_ascii_of_string s) at 1.
      apply length_string_of_list_ascii. }
    rewrite Hlen.
    rewrite (map_result_ret _ (fun j => nth j cs Ascii.zero)).
    + rewrite map_nth_error_seq. unfold Py.bind. subst cs.
      rewrite string_of_list_ascii_of_string. reflexivity.
    + intros j Hj. apply in_seq in Hj.
      rewrite (nth_error_nth' cs Ascii.zero) by lia.
      unfold random_choice.
      destruct (alnum_in_alphabet (nth j cs Ascii.zero)) as [Hnth _].
      { apply Hs, nth_In. lia. }
      rewrite Hnth. reflexivity.
Qed.

Lemma random_string_onto_witness :
  exists draw : nat -> nat,
    (forall j, (draw j < 62)%nat) /\
    random_string (Z.of_nat (String.length "aZ9")) draw = Ret "aZ9"%string.
Proof.
  apply (random_string_onto "aZ9").
  intros c [<- | [<- | [<- | []]]]; reflexivity.
Defined.

(** X11.  Two runs of [random_string(n)] that return the same string drew
    the same index at each of the [n] places: no two index sequences give
    one string. *)
Theorem random_string_injective (n : Z) (d1 d2 : nat -> nat) (s : string) :
  random_string n d1 = Ret s ->
  random_string n d2 = Ret s ->
  forall j, (j < Z.to_nat n)%nat -> d1 j = d2 j.
Proof.
  assert (forall d cs,
             random_choices alphabet (Z.to_nat n) d = Ret cs ->
             forall j, (j < Z.to_nat n)%nat ->
                       exists c, nth_error cs j = Some c /\
                                 index_in c alphabet = d j) as Hplaces.
  { intros d cs H j Hj. apply map_result_inv in H.
    assert (nth_error (seq 0 (Z.to_nat n)) j = Some j) as Hseq.
    { rewrite (nth_error_nth' _ 0%nat) by (rewrite length_seq; exact Hj).
      rewrite seq_nth by exact Hj. reflexivity. }
    destruct (Forall2_nth_error_left _ _ _ _ _ H Hseq) as (c & Hc & Hch).
    exists c. split; [exact Hc |].
    unfold random_choice in Hch.
    destruct (nth_error alphabet (d j)) as [c' |] eqn:Hd; [| discriminate Hch].
    injection Hch as ->. apply alphabet_place. exact Hd. }
  unfold random_string. intros H1 H2 j Hj.
  destruct (random_choices alphabet (Z.to_nat n) d1) as [cs1 |] eqn:E1;
    [| discriminate H1].
  destruct (random_choices alphabet (Z.to_nat n) d2) as [cs2 |] eqn:E2;
    [| discriminate H2].
  unfold Py.bind in H1, H2.
  assert (cs1 = cs2) as Hcs.
  { rewrite <- (list_ascii_of_string_of_list_ascii cs1).
    rewrite <- (list_ascii_of_string_of_list_ascii cs2). congruence. }
  destruct (Hplaces d1 cs1 E1 j Hj) as (c1 & Hc1 & Hi1).
  destruct (Hplaces d2 cs2 E2 j Hj) as (c2 & Hc2 & Hi2).
  congruence.
Qed.

Lemma random_string_injective_witness :
  (fun i => (i + 26)%nat) 1%nat = (fun i => (26 + i)%nat) 1%nat.
Proof.
  apply (random_string_injective 2 (fun i => (i + 26)%nat)
           (fun i => (26 + i)%nat) "AB");
    [reflexivity | reflexivity | simpl; lia].
Defined.

(** * Properties of the tasks *)

Lemma randint_in_range (a b : Z) (below : Z -> Z) :
  (a <= b)%Z ->
  (forall n, (0 < n)%Z -> (0 <= below n < n)%Z) ->
  exists v : Z,
    randint a b below = Ret v /\ v = (a + below (b + 1 - a))%Z /\
    (a <= v <= b)%Z.
Proof.
  intros Hab Hb. unfold randint.
  assert (0 < b + 1 - a)%Z as Hw by lia.
  apply Z.ltb_lt in Hw. rewrite Hw. apply Z.ltb_lt in Hw.
  eexists. split; [reflexivity |]. split; [reflexivity |].
  specialize (Hb _ Hw). lia.
Qed.

(** A generator that answers the request below [width] with [r]. *)
Lemma below_exists (width r : Z) :
  (0 <= r < width)%Z ->
  exists below : Z -> Z,
    (forall n, (0 < n)%Z -> (0 <= below n < n)%Z) /\ below width = r.
Proof.
  intros Hr.
  exists (fun n => if (n =? width)%Z then r else 0%Z). split.
  - intros n Hn. destruct (n =? width)%Z eqn:E; [| lia].
    apply Z.eqb_eq in E. lia.
  - rewrite Z.eqb_refl. reflexivity.
Qed.

Lemma get_with_query_returns (draw : nat -> nat) (below : Z -> Z) :
  (forall j, (j < 6)%nat -> (draw j < 62)%nat) ->
  exists c : Call, get_with_query draw below = Ret c.
Proof.
  intros Hd.
  destruct (random_string_in_range 6 draw Hd) as (q & Hq & _).
  unfold get_with_query. rewrite Hq. eexists. reflexivity.
Qed.

Lemma post_json_returns (below : Z -> Z) (draw : nat -> nat) (now : Q) :
  (forall j, (j < 10)%nat -> (draw j < 62)%nat) ->
  exists c : Call, post_json below draw now = Ret c.
Proof.
  intros Hd.
  destruct (random_string_in_range 10 draw Hd) as (nm & Hnm & _).
  unfold post_json. rewrite Hnm. eexists. reflexivity.
Qed.

(** X12.  With the drawn indices in range, [get_with_query] sends a GET
    of ["/get"] under the one name ["GET /get?q=.."], with two
    parameters: [q], six letters or digits, and [page].  Whatever the
    generator answers, [page] is a number from 1 to 100, and each number
    from 1 to 100 is the page for some answer of the generator. *)
Theorem get_with_query_request (draw : nat -> nat) :
  (forall j, (j < 6)%nat -> (draw j < 62)%nat) ->
  exists q : string,
    String.length q = 6%nat /\
    (forall c, In c (list_ascii_of_string q) -> is_alnum c = true) /\
    (forall below : Z -> Z,
        (forall n, (0 < n)%Z -> (0 <= below n < n)%Z) ->
        exists p : Z,
          (1 <= p <= 100)%Z /\
          get_with_query draw below =
            Ret {| request := client_get "/get" "GET /get?q=.." 30;
                   params := Some [("q"%string, Str q); ("page"%string, Int p)];
                   json := None |}) /\
    (forall p : Z, (1 <= p <= 100)%Z ->
        exists below : Z -> Z,
          (forall n, (0 < n)%Z -> (0 <= below n < n)%Z) /\
          get_with_query draw below =
            Ret {| request := client_get "/get" "GET /get?q=.." 30;
                   params := Some [("q"%string, Str q); ("page"%string, Int p)];
                   json := None |}).
Proof.
  intros Hd.
  destruct (random_string_in_range 6 draw Hd) as (q & Hq & Hlen & Hal & _).
  exists q. split; [exact Hlen |]. split; [exact Hal |]. split.
  - intros below Hb.
    destruct (randint_in_range 1 100 below ltac:(lia) Hb) as (p & Hp & _ & Hr).
    exists p. split; [exact Hr |].
    unfold get_with_query. rewrite Hq. unfold Py.bind at 1. rewrite Hp.
    reflexivity.
  - intros p Hp.
    destruct (below_exists 100 (p - 1) ltac:(lia)) as (below & Hb & Hv).
    exists below. split; [exact Hb |].
    assert (randint 1 100 below = Ret p) as Hr.
    { unfold randint. change (100 + 1 - 1)%Z with 100%Z.
      change (0 <? 100)%Z with true. cbv iota. rewrite Hv. f_equal. lia. }
    unfold get_with_query. rewrite Hq. unfold Py.bind at 1. rewrite Hr.
    reflexivity.
Qed.

Lemma get_with_query_request_witness :
  exists q : string,
    String.length q = 6%nat /\
    (forall c, In c (list_ascii_of_string q) -> is_alnum c = true) /\
    (forall below : Z -> Z,
        (forall n, (0 < n)%Z -> (0 <= below n < n)%Z) ->
        exists p : Z,
          (1 <= p <= 100)%Z /\
          get_with_query (letters some_draws) below =
            Ret {| request := client_get "/get" "GET /get?q=.." 30;
                   params := Some [("q"%string, Str q); ("page"%string, Int p)];
                   json := None |}) /\
    (forall p : Z, (1 <= p <= 100)%Z ->
        exists below : Z -> Z,
          (forall n, (0 < n)%Z -> (0 <= below n < n)%Z) /\
          get_with_query (letters some_draws) below =
            Ret {| request := client_get "/get" "GET /get?q=.." 30;
                   params := Some [("q"%string, Str q); ("page"%string, Int p)];
                   json := None |}).
Proof.
  apply (get_with_query_request (letters some_draws)).
  intros j Hj. simpl. lia.
Defined.

(** X13.  With the drawn indices in range and a clock that is not
    negative, [post_json] sends a POST of ["/post"] whose JSON body
    holds, in this order, [id], [name], ten letters or digits, and
    [timestamp], the clock rounded down to whole seconds.  Whatever the
    generator answers, [id] is a number from 1 to 100000, and each number
    from 1 to 100000 is the id for some answer of the generator. *)
Theorem post_json_request (draw : nat -> nat) (now : Q) :
  (forall j, (j < 10)%nat -> (draw j < 62)%nat) ->
  0 <= now ->
  exists (nm : string) (ts : Z),
    String.length nm = 10%nat /\
    (forall c, In c (list_ascii_of_string nm) -> is_alnum c = true) /\
    inject_Z ts <= now /\ now < inject_Z (ts + 1) /\
    (forall below : Z -> Z,
        (forall n, (0 < n)%Z -> (0 <= below n < n)%Z) ->
        exists i : Z,
          (1 <= i <= 100000)%Z /\
          post_json below draw now =
            Ret {| request := {| method := "POST"; path := "/post";
                                 name := "POST /post (json)"; timeout := 30 |};
                   params := None;
                   json := Some [("id"%string, Int i); ("name"%string, Str nm);
                                 ("timestamp"%string, Int ts)] |}) /\
    (forall i : Z, (1 <= i <= 100000)%Z ->
        exists below : Z -> Z,
          (forall n, (0 < n)%Z -> (0 <= below n < n)%Z) /\
          post_json below draw now =
            Ret {| request := {| method := "POST"; path := "/post";
                                 name := "POST /post (json)"; timeout := 30 |};
                   params := None;
                   json := Some [("id"%string, Int i); ("name"%string, Str nm);
                                 ("timestamp"%string, Int ts)] |}).
Proof.
  intros Hd Hnow.
  destruct (random_string_in_range 10 draw Hd) as (nm & Hnm & Hlen & Hal & _).
  exists nm, (int now).
  split; [exact Hlen |]. split; [exact Hal |].
  rewrite (int_floor now Hnow).
  split; [apply Qfloor_le |]. split; [apply Qlt_floor |]. split.
  - intros below Hb.
    destruct (randint_in_range 1 100000 below ltac:(lia) Hb)
      as (i & Hi & _ & Hr).
    exists i. split; [exact Hr |].
    unfold post_json. rewrite Hi, Hnm. unfold Py.bind.
    rewrite (int_floor now Hnow). reflexivity.
  - intros i Hi.
    destruct (below_exists 100000 (i - 1) ltac:(lia)) as (below & Hb & Hv).
    exists below. split; [exact Hb |].
    assert (randint 1 100000 below = Ret i) as Hr.
    { unfold randint. change (100000 + 1 - 1)%Z with 100000%Z.
      change (0 <? 100000)%Z with true. cbv iota. rewrite Hv. f_equal. lia. }
    unfold post_json. rewrite Hr, Hnm. unfold Py.bind.
    rewrite (int_floor now Hnow). reflexivity.
Qed.

Lemma post_json_request_witness :
  exists (nm : string) (ts : Z),
    String.length nm = 10%nat /\
    (forall c, In c (list_ascii_of_string nm) -> is_alnum c = true) /\
    inject_Z ts <= clock some_draws /\ clock some_draws < inject_Z (ts + 1) /\
    (forall below : Z -> Z,
        (forall n, (0 < n)%Z -> (0 <= below n < n)%Z) ->
        exists i : Z,
          (1 <= i <= 100000)%Z /\
          post_json below (letters some_draws) (clock some_draws) =
            Ret {| request := {| method := "POST"; path := "/post";
                                 name := "POST /post (json)"; timeout := 30 |};
                   params := None;
                   json := Some [("id"%string, Int i); ("name"%string, Str nm);
                                 ("timestamp"%string, Int ts)] |}) /\
    (forall i : Z, (1 <= i <= 100000)%Z ->
        exists below : Z -> Z,
          (forall n, (0 < n)%Z -> (0 <= below n < n)%Z) /\
          post_json below (letters some_draws) (clock some_draws) =
            Ret {| request := {| method := "POST"; path := "/post";
                                 name := "POST /post (json)"; timeout := 30 |};
                   params := None;
                   json := Some [("id"%string, Int i); ("name"%string, Str nm);
                                 ("timestamp"%string, Int ts)] |}).
Proof.
  apply (post_json_request (letters some_draws) (clock some_draws));
    [intros j Hj; simpl; lia | discriminate].
Defined.

(** X14.  Whatever is drawn, a task that sends a request sends it under
    one of ten names, so the drawn query strings, ids and timestamps
    never add a name to the statistics; requests of [delayed] and
    [stream] have a timeout of 60 seconds and all others of 30, and only
    [post_json] sends a POST. *)
Theorem run_task_request (t : Task) (d : Draws) (c : Call) :
  run_task t d = Ret c ->
  In (name (request c)) labels /\
  timeout (request c) = match t with Delayed | Stream => 60%Z | _ => 30%Z end /\
  method (request c)
    = match t with PostJson => "POST"%string | _ => "GET"%string end.
Proof.
  intros H. destruct t; unfold run_task in H.
  - injection H as <-. simpl. tauto.
  - unfold get_with_query in H.
    destruct (random_string 6 (letters d)); [| discriminate H].
    injection H as <-. simpl. tauto.
  - destruct (index d) as [| [| [| i]]];
      try (injection H as <-; simpl; tauto).
    destruct i; discriminate H.
  - injection H as <-. simpl. tauto.
  - unfold post_json in H.
    destruct (random_string 10 (letters d)); [| discriminate H].
    injection H as <-. simpl. tauto.
  - destruct (index d) as [| [| [| [| [| i]]]]];
      try (injection H as <-; simpl; tauto).
    destruct i; discriminate H.
Qed.

Lemma run_task_request_witness :
  In (name (request (plain (client_get "/delay/2" "GET /delay/2" 60)))) labels /\
  timeout (request (plain (client_get "/delay/2" "GET /delay/2" 60))) = 60%Z /\
  method (request (plain (client_get "/delay/2" "GET /delay/2" 60)))
    = "GET"%string.
Proof.
  apply (run_task_request Delayed some_draws).
  reflexivity.
Defined.

(** X15.  With draws in range every task sends its request: none of the
    six raises. *)
Theorem run_task_returns (t : Task) (d : Draws) :
  in_range t d -> exists c : Call, run_task t d = Ret c.
Proof.
  destruct t; simpl; intros H.
  - eexists; reflexivity.
  - destruct H as [Hl Hn].
    destruct (get_with_query_returns (letters d) (number d) Hl)
      as (c & Hc). exists c. exact Hc.
  - destruct (index d) as [| [| [| i]]]; try lia; eexists; reflexivity.
  - eexists; reflexivity.
  - destruct H as [Hl Hn].
    destruct (post_json_returns (number d) (letters d) (clock d) Hl)
      as (c & Hc). exists c. exact Hc.
  - destruct (index d) as [| [| [| [| [| i]]]]]; try lia; eexists; reflexivity.
Qed.

Lemma run_task_returns_witness :
  exists c : Call, run_task PostJson some_draws = Ret c.
Proof.
  apply run_task_returns. simpl. split; [intros j Hj; lia | intros n Hn; lia].
Defined.
